(** * linode_nodebalancer: reconciling one Linode NodeBalancer

    A shallow embedding of [cloud/linode/linode_nodebalancer.py] and the
    properties of its reconciliation function [linodeNodeBalancers].

    The module talks to a remote service through an API client object.  The
    embedding threads the remote state explicitly and records every remote
    call of a run in a trace, so that statements such as "exactly one update
    call is issued" are statements about that trace. *)

From Stdlib Require Import ZArith String Ascii List Lia DecimalString.
From Stdlib Require Import DecimalPos DecimalZ.
From stdpp Require Import gmap strings list.

Local Open Scope Z_scope.
Local Open Scope string_scope.
Local Open Scope list_scope.

(** ** Python values and the data exchanged with the API *)

(** The values passed as keyword arguments: [None], an [int] or a [str]. *)
Inductive pyval : Type :=
  | PyNone
  | PyInt (z : Z)
  | PyStr (s : string).

#[global] Instance pyval_eq_dec : EqDecision pyval.
Proof. solve_decision. Defined.

(** [name] comes from a parameter of type 'str' that is not required, so it
    is a string or [None]; [node_balancer_id] likewise an int or [None]. *)
Definition py_of_name (name : option string) : pyval :=
  match name with Some s => PyStr s | None => PyNone end.

(** Keyword arguments of one API call, [**kwargs]. *)
Abbreviation kwargs := (gmap string pyval).

(** The dictionary describing one NodeBalancer, with the keys the module
    reads ([NODEBALANCERID], [LABEL], [CLIENTCONNTHROTTLE]) and, from the
    specification's RemoteResource, the two settings fixed at creation. *)
Record NodeBalancer : Type := mkNodeBalancer {
  NODEBALANCERID : Z;
  LABEL : string;
  CLIENTCONNTHROTTLE : Z;
  DATACENTERID : Z;
  PAYMENTTERM : Z
}.

#[global] Instance NodeBalancer_eq_dec : EqDecision NodeBalancer.
Proof. solve_decision. Defined.

(** The answer of a create or update call: [new['NodeBalancerID']]. *)
Record WriteResponse : Type := mkWriteResponse { NodeBalancerID : Z }.

(** [linode_api.ApiError]; the two fields are those of [e.value[0]]. *)
Record ApiError : Type := mkApiError {
  ERRORCODE : Z;
  ERRORMESSAGE : string
}.

(** ** Remote calls and their trace *)

Inductive api_method : Type :=
  | test_echo
  | nodebalancer_find
  | nodebalancer_list
  | nodebalancer_create
  | nodebalancer_update
  | nodebalancer_delete.

#[global] Instance api_method_eq_dec : EqDecision api_method.
Proof. solve_decision. Defined.

(** The calls that modify the remote state. *)
Definition is_write (m : api_method) : bool :=
  match m with
  | nodebalancer_create | nodebalancer_update | nodebalancer_delete => true
  | test_echo | nodebalancer_find | nodebalancer_list => false
  end.

(** One remote call as it was issued: the method, its keyword arguments and
    the error it raised, if any. *)
Record event : Type := mkEvent {
  ev_method : api_method;
  ev_kwargs : kwargs;
  ev_error : option ApiError
}.

Definition ev_ok (ev : event) : Prop := ev_error ev = None.

Definition writes (tr : list event) : list event :=
  List.filter (fun ev => is_write (ev_method ev)) tr.

(** What the module hands back to Ansible: [module.exit_json(changed=...,
    instance=..., instances=...)] or [module.fail_json(msg=...)].  Both end
    the process. *)
Inductive outcome : Type :=
  | exit_json (changed : bool) (instance : option NodeBalancer)
              (instances : list (option NodeBalancer))
  | fail_json (msg : string).

(** [str(n)] for an int. *)
Definition str (n : Z) : string := NilZero.string_of_int (Z.to_int n).

(** ** The API client against an arbitrary remote service *)

Section Client.

(** The state of the remote service. *)
Context {R : Type}.

(** The remote service: how it answers each call, and the state it is in
    afterwards.  An answer is an [ApiError] or a value. *)
Record Server : Type := mkServer {
  srv_test_echo : string -> R -> (ApiError + unit) * R;
  srv_find : kwargs -> R -> (ApiError + option NodeBalancer) * R;
  srv_list : kwargs -> R -> (ApiError + list NodeBalancer) * R;
  srv_create : kwargs -> R -> (ApiError + WriteResponse) * R;
  srv_update : kwargs -> R -> (ApiError + WriteResponse) * R;
  srv_delete : kwargs -> R -> (ApiError + unit) * R
}.

Variable srv : Server.

(** The remote state together with the calls issued so far. *)
Record world : Type := mkWorld {
  remote : R;
  trace : list event
}.

Definition init (r : R) : world := {| remote := r; trace := [] |}.

(** Computations that call the API: they may raise an [ApiError]. *)
Definition M (A : Type) : Type := world -> (ApiError + A) * world.

Definition ret {A} (a : A) : M A := fun w => (inr a, w).

Definition bind {A B} (m : M A) (k : A -> M B) : M B :=
  fun w =>
    match m w with
    | (inr a, w') => k a w'
    | (inl e, w') => (inl e, w')
    end.

Definition error_of {A} (res : ApiError + A) : option ApiError :=
  match res with inl e => Some e | inr _ => None end.

(** One remote call: the server answers, and the call is recorded. *)
Definition call {A} (m : api_method) (kw : kwargs)
    (handler : kwargs -> R -> (ApiError + A) * R) : M A :=
  fun w =>
    let '(res, r') := handler kw (remote w) in
    (res, {| remote := r';
             trace := trace w ++ [mkEvent m kw (error_of res)] |}).

End Client.

Arguments Server : clear implicits.
Arguments world : clear implicits.
Arguments M : clear implicits.

Declare Scope api_scope.
Delimit Scope api_scope with api.
Notation "x <- c1 ;; c2" := (bind c1 (fun x => c2))
  (at level 100, c1 at next level, right associativity) : api_scope.

Section Reconciler.

Context {R : Type}.
Variable srv : Server R.

Local Open Scope api_scope.

(** Modelled from the spec: [linode_find_nodebalancer] lives in
    [ansible.module_utils.linode], which is not part of the sources at
    hand.  "If identifier given, resolve directly by id; else resolve by
    name (first match in listing, or none if absent)."  Each lookup is one
    remote call. *)
Definition linode_find_nodebalancer (node_balancer_id : option Z)
    (name : option string) : M R (option NodeBalancer) :=
  match node_balancer_id with
  | Some i =>
      call nodebalancer_find {[ "NodeBalancerID" := PyInt i ]} (srv_find srv)
  | None =>
      listing <- call nodebalancer_list ∅ (srv_list srv) ;;
      ret (List.find (fun nb => bool_decide (Some (LABEL nb) = name)) listing)
  end.

(** [nodebalancer['LABEL'] != name] *)
Definition label_differs (nb : NodeBalancer) (name : option string) : bool :=
  bool_decide (Some (LABEL nb) ≠ name).

(** [nodebalancer['CLIENTCONNTHROTTLE'] != client_conn_throttle] *)
Definition throttle_differs (nb : NodeBalancer) (client_conn_throttle : Z) : bool :=
  bool_decide (CLIENTCONNTHROTTLE nb ≠ client_conn_throttle).

(** The keyword arguments of the update call: [NodeBalancerID] and
    [ClientConnThrottle] always, [Label] through [update_kwargs] only when
    the label differs. *)
Definition update_call_kwargs (nb : NodeBalancer) (name : option string)
    (client_conn_throttle : Z) : kwargs :=
  let update_kwargs : kwargs :=
    if label_differs nb name then {[ "Label" := py_of_name name ]} else ∅ in
  <[ "NodeBalancerID" := PyInt (NODEBALANCERID nb) ]>
    (<[ "ClientConnThrottle" := PyInt client_conn_throttle ]> update_kwargs).

(** The keyword arguments of the create call. *)
Definition create_call_kwargs (name : option string)
    (datacenter_id paymentterm : Z) : kwargs :=
  <[ "DatacenterID" := PyInt datacenter_id ]>
    (<[ "PaymentTerm" := PyInt paymentterm ]>
       {[ "Label" := py_of_name name ]}).

(** The keyword argument of the delete call, spelled as in the source. *)
Definition delete_call_kwargs (nb : NodeBalancer) : kwargs :=
  {[ "NodeBalancerId" := PyInt (NODEBALANCERID nb) ]}.

(** The function [linodeNodeBalancers] before decoration.  The branches
    set [changed] and [nodebalancer]; the function ends in
    [module.exit_json], unless an [ApiError] escapes from one of its calls.
    [if nodebalancer:] is false for [None] only, a resource dictionary is
    never empty. *)
Definition linodeNodeBalancers_func (state : string) (name : option string)
    (node_balancer_id : option Z) (datacenter_id paymentterm : Z)
    (client_conn_throttle : Z) : M R outcome :=
  let changed := false in
  nodebalancer <- linode_find_nodebalancer node_balancer_id name ;;
  final <-
    match nodebalancer with
    | Some nb =>
        if String.eqb state "present" then
          if label_differs nb name || throttle_differs nb client_conn_throttle
          then
            new <- call nodebalancer_update
                     (update_call_kwargs nb name client_conn_throttle)
                     (srv_update srv) ;;
            let changed := true in
            nodebalancer <- linode_find_nodebalancer
                              (Some (NodeBalancerID new)) name ;;
            ret (changed, nodebalancer)
          else ret (changed, nodebalancer)
        else if String.eqb state "absent" then
          _ <- call nodebalancer_delete (delete_call_kwargs nb)
                 (srv_delete srv) ;;
          let nodebalancer := None in
          let changed := true in
          ret (changed, nodebalancer)
        else ret (changed, nodebalancer)
    | None =>
        if String.eqb state "present" then
          new <- call nodebalancer_create
                   (create_call_kwargs name datacenter_id paymentterm)
                   (srv_create srv) ;;
          nodebalancer <- linode_find_nodebalancer
                            (Some (NodeBalancerID new)) name ;;
          let changed := true in
          ret (changed, nodebalancer)
        else ret (changed, nodebalancer)
    end ;;
  let '(changed, nodebalancer) := final in
  ret (exit_json changed nodebalancer [nodebalancer]).

(** The message [handle_api_error] builds from an [ApiError]. *)
Definition api_error_msg (e : ApiError) : string :=
  "FATAL: Code [" +:+ str (ERRORCODE e) +:+ "] - " +:+ ERRORMESSAGE e.

(** The decorator: an [ApiError] raised anywhere in [func] becomes
    [module.fail_json]. *)
Definition handle_api_error (func : M R outcome) : world R -> outcome * world R :=
  fun w =>
    match func w with
    | (inr o, w') => (o, w')
    | (inl e, w') => (fail_json (api_error_msg e), w')
    end.

(** [linodeNodeBalancers] as the module defines it, decorated. *)
Definition linodeNodeBalancers (state : string) (name : option string)
    (node_balancer_id : option Z) (datacenter_id paymentterm : Z)
    (client_conn_throttle : Z) : world R -> outcome * world R :=
  handle_api_error
    (linodeNodeBalancers_func state name node_balancer_id datacenter_id
       paymentterm client_conn_throttle).

(** One run of [linodeNodeBalancers] against the remote state [r]: the
    outcome, and the remote state afterwards with the calls of this run. *)
Definition reconcile (state : string) (name : option string)
    (node_balancer_id : option Z) (datacenter_id paymentterm : Z)
    (client_conn_throttle : Z) (r : R) : outcome * world R :=
  linodeNodeBalancers state name node_balancer_id datacenter_id paymentterm
    client_conn_throttle (init r).

(** [module.params], after [AnsibleModule] has parsed and checked them. *)
Record params : Type := mkParams {
  p_api_key : option string;
  p_name : option string;
  p_node_balancer_id : option Z;
  p_state : string;
  p_datacenter_id : Z;
  p_paymentterm : Z;
  p_client_conn_throttle : Z
}.

(** [main], from the point where [AnsibleModule] has returned the module:
    the arguments passed its checks ([required_one_of], [choices]) and [p]
    holds them.  [import_error] is [LINODE_IMPORT_ERROR] when the import of
    the client library failed ([HAS_LINODE] false); [environ] is
    [os.environ].  The calls of the client either return or raise an
    [ApiError]; an exception of another kind at [test_echo], on which the
    handler of line 205 itself fails, is outside this model. *)
Definition main (import_error : option string) (p : params)
    (environ : gmap string string) (r : R) : outcome * world R :=
  match import_error with
  | Some err => (fail_json (err +:+ " (pip install linode-python)"), init r)
  | None =>
      let api_key :=
        match p_api_key p with
        | Some k => if String.eqb k "" then environ !! "LINODE_API_KEY" else Some k
        | None => environ !! "LINODE_API_KEY"
        end in
      match api_key with
      | None => (fail_json "Unable to load LINODE_API_KEY", init r)
      | Some api_key =>
          match call test_echo ∅ (fun _ => srv_test_echo srv api_key) (init r) with
          | (inl e, w) => (fail_json (ERRORMESSAGE e), w)
          | (inr _, w) =>
              linodeNodeBalancers (p_state p) (p_name p) (p_node_balancer_id p)
                (p_datacenter_id p) (p_paymentterm p)
                (p_client_conn_throttle p) w
          end
      end
  end.

End Reconciler.

(** ** A model of the remote service *)

Module Remote.

(** Modelled from the spec: the Linode service and its client library are
    not part of the sources.  "RemoteResource: id (assigned by remote
    system, stable for resource lifetime); label (mutable);
    client_conn_throttle (mutable); datacenter_id, payment_term: set only at
    creation.  Created by a create call (assigns id), mutated in place by
    update calls, destroyed by a delete call."  A created resource starts
    with throttle 0.  The listing keeps creation order. *)
Record store : Type := mkStore {
  balancers : list NodeBalancer;
  next_id : Z
}.

Definition lower_ascii (c : ascii) : ascii :=
  let n := nat_of_ascii c in
  if ((65 <=? n)%nat && (n <=? 90)%nat)%bool then ascii_of_nat (n + 32) else c.

Fixpoint lower (s : string) : string :=
  match s with
  | EmptyString => EmptyString
  | String c s' => String (lower_ascii c) (lower s')
  end.

(** Argument names are matched without regard to case, which the delete
    call site relies on ([NodeBalancerId]). *)
Definition kw_get (k : string) (kw : kwargs) : option pyval :=
  snd <$> List.find (fun kv => String.eqb (lower (fst kv)) (lower k))
                    (map_to_list kw).

Definition validation_error : ApiError := mkApiError 8 "Data validation failed".
Definition not_found_error : ApiError := mkApiError 5 "Object not found".

Definition has_id (i : Z) (nb : NodeBalancer) : bool :=
  bool_decide (NODEBALANCERID nb = i).

Definition find_by_id (i : Z) (st : store) : option NodeBalancer :=
  List.find (has_id i) (balancers st).

Definition model_test_echo (api_key : string) (st : store)
    : (ApiError + unit) * store :=
  (inr tt, st).

Definition model_find (kw : kwargs) (st : store)
    : (ApiError + option NodeBalancer) * store :=
  match kw_get "NodeBalancerID" kw with
  | Some (PyInt i) => (inr (find_by_id i st), st)
  | _ => (inl validation_error, st)
  end.

Definition model_list (kw : kwargs) (st : store)
    : (ApiError + list NodeBalancer) * store :=
  (inr (balancers st), st).

(** A resource created without a label gets one from its id. *)
Definition model_create (kw : kwargs) (st : store)
    : (ApiError + WriteResponse) * store :=
  match kw_get "DatacenterID" kw, kw_get "PaymentTerm" kw with
  | Some (PyInt dc), Some (PyInt pt) =>
      let i := next_id st in
      let label :=
        match kw_get "Label" kw with
        | Some (PyStr s) => s
        | _ => "nodebalancer" +:+ str i
        end in
      (inr (mkWriteResponse i),
       {| balancers := balancers st ++ [mkNodeBalancer i label 0 dc pt];
          next_id := i + 1 |})
  | _, _ => (inl validation_error, st)
  end.

(** The fields an update call may change; a field that is not given as a
    string (label) or an int (throttle) is left as it is. *)
Definition apply_update (kw : kwargs) (nb : NodeBalancer) : NodeBalancer :=
  {| NODEBALANCERID := NODEBALANCERID nb;
     LABEL := match kw_get "Label" kw with
              | Some (PyStr s) => s
              | _ => LABEL nb
              end;
     CLIENTCONNTHROTTLE := match kw_get "ClientConnThrottle" kw with
                           | Some (PyInt t) => t
                           | _ => CLIENTCONNTHROTTLE nb
                           end;
     DATACENTERID := DATACENTERID nb;
     PAYMENTTERM := PAYMENTTERM nb |}.

Definition model_update (kw : kwargs) (st : store)
    : (ApiError + WriteResponse) * store :=
  match kw_get "NodeBalancerID" kw with
  | Some (PyInt i) =>
      match find_by_id i st with
      | Some _ =>
          (inr (mkWriteResponse i),
           {| balancers :=
                List.map (fun nb => if has_id i nb then apply_update kw nb else nb)
                         (balancers st);
              next_id := next_id st |})
      | None => (inl not_found_error, st)
      end
  | _ => (inl validation_error, st)
  end.

Definition model_delete (kw : kwargs) (st : store)
    : (ApiError + unit) * store :=
  match kw_get "NodeBalancerID" kw with
  | Some (PyInt i) =>
      match find_by_id i st with
      | Some _ =>
          (inr tt,
           {| balancers := List.filter (fun nb => negb (has_id i nb)) (balancers st);
              next_id := next_id st |})
      | None => (inl not_found_error, st)
      end
  | _ => (inl validation_error, st)
  end.

Definition server : Server store :=
  {| srv_test_echo := model_test_echo;
     srv_find := model_find;
     srv_list := model_list;
     srv_create := model_create;
     srv_update := model_update;
     srv_delete := model_delete |}.

(** Ids are unique and below the next id to be assigned. *)
Definition store_wf (st : store) : Prop :=
  NoDup (List.map NODEBALANCERID (balancers st)) /\
  Forall (fun nb => NODEBALANCERID nb < next_id st) (balancers st).

(** What a lookup finds in a given store. *)
Definition model_lookup (node_balancer_id : option Z) (name : option string)
    (st : store) : option NodeBalancer :=
  match node_balancer_id with
  | Some i => find_by_id i st
  | None =>
      List.find (fun nb => bool_decide (Some (LABEL nb) = name)) (balancers st)
  end.

Definition lookup_event (node_balancer_id : option Z) : event :=
  match node_balancer_id with
  | Some i => mkEvent nodebalancer_find {[ "NodeBalancerID" := PyInt i ]} None
  | None => mkEvent nodebalancer_list ∅ None
  end.

(** The store after the update call of [linodeNodeBalancers] for the
    resource [nb]: that resource is rewritten in place. *)
Definition updated (nb : NodeBalancer) (name : option string) (t : Z)
    (st : store) : store :=
  {| balancers :=
       List.map (fun x => if has_id (NODEBALANCERID nb) x
                          then apply_update (update_call_kwargs nb name t) x
                          else x)
                (balancers st);
     next_id := next_id st |}.


(** The store after the delete call of [linodeNodeBalancers] for [nb]. *)
Definition deleted (nb : NodeBalancer) (st : store) : store :=
  {| balancers :=
       List.filter (fun x => negb (has_id (NODEBALANCERID nb) x)) (balancers st);
     next_id := next_id st |}.

(** At most one resource of the store carries the label [s]. *)
Definition at_most_one_named (s : string) (st : store) : Prop :=
  (length (List.filter (fun nb => bool_decide (Some (LABEL nb) = Some s))
             (balancers st)) <= 1)%nat.


End Remote.

(** ** Shapes of a trace *)

(** A failed run reports the error of its last call, and every call before
    it succeeded. *)
Definition aborted_at_error (tr : list event) (msg : string) : Prop :=
  exists evs ev e,
    tr = evs ++ [ev] /\ Forall ev_ok evs /\ ev_error ev = Some e /\
    msg = api_error_msg e.

(** The calls that read a resource: by id, or the listing. *)
Definition is_lookup (m : api_method) : bool :=
  match m with
  | nodebalancer_find | nodebalancer_list => true
  | test_echo | nodebalancer_create | nodebalancer_update
  | nodebalancer_delete => false
  end.

(** The shape of the calls of one run: a lookup alone; or a lookup that
    succeeded and one write; or a lookup that succeeded, a create or an
    update that succeeded, and the lookup by id that reads the written
    resource back. *)
Definition lookup_write_refetch (tr : list event) : Prop :=
  exists lookup,
    is_lookup (ev_method lookup) = true /\
    (tr = [lookup] \/
     (exists w,
        is_write (ev_method w) = true /\ ev_ok lookup /\ tr = [lookup; w]) \/
     (exists w refetch,
        (ev_method w = nodebalancer_create \/
         ev_method w = nodebalancer_update) /\
        ev_ok lookup /\ ev_ok w /\
        ev_method refetch = nodebalancer_find /\
        tr = [lookup; w; refetch])).

(** ** Example data *)

(** A service that answers every call with an error. *)
Module Outage.

Definition down : ApiError := mkApiError 4 "Authentication failed".

Definition server : Server unit :=
  {| srv_test_echo := fun _ r => (inl down, r);
     srv_find := fun _ r => (inl down, r);
     srv_list := fun _ r => (inl down, r);
     srv_create := fun _ r => (inl down, r);
     srv_update := fun _ r => (inl down, r);
     srv_delete := fun _ r => (inl down, r) |}.

End Outage.

Definition web : NodeBalancer := mkNodeBalancer 7 "web" 5 7 1.

Definition one_balancer : Remote.store := Remote.mkStore [web] 8.

Definition no_balancer : Remote.store := Remote.mkStore [] 1.

(** ** The key, the characters of a message, a service that loses lookups *)

(** The key [main] ends up with: [api_key] when it is given and not empty,
    otherwise [os.environ['LINODE_API_KEY']]. *)
Definition resolved_api_key (p : params) (environ : gmap string string)
    : option string :=
  match p_api_key p with
  | Some k => if String.eqb k "" then environ !! "LINODE_API_KEY" else Some k
  | None => environ !! "LINODE_API_KEY"
  end.

(** [c in s] *)
Fixpoint has_char (c : ascii) (s : string) : bool :=
  match s with
  | EmptyString => false
  | String a s' => Ascii.eqb a c || has_char c s'
  end.

(** The model of the remote service, except that every lookup by id is
    answered with an error: writes go through, reading them back fails. *)
Module Flaky.

Definition server : Server Remote.store :=
  {| srv_test_echo := Remote.model_test_echo;
     srv_find := fun _ st => (inl Outage.down, st);
     srv_list := Remote.model_list;
     srv_create := Remote.model_create;
     srv_update := Remote.model_update;
     srv_delete := Remote.model_delete |}.

End Flaky.

Definition db : NodeBalancer := mkNodeBalancer 8 "db" 0 2 12.

Definition two_balancers : Remote.store := Remote.mkStore [web; db] 9.


(** ** Proof steps for runs *)

Ltac unfold_run :=
  unfold reconcile, linodeNodeBalancers, handle_api_error,
    linodeNodeBalancers_func, bind.

Ltac unfold_calls :=
  unfold linode_find_nodebalancer, bind, call, ret, init in *; simpl in *.

(** Case analysis on the answer of the next remote call. *)
Ltac answer :=
  match goal with
  | |- context [srv_find ?s ?kw ?r] =>
      destruct (srv_find s kw r) as [[?|[?|]] ?] eqn:?
  | |- context [srv_list ?s ?kw ?r] =>
      destruct (srv_list s kw r) as [[?|?] ?] eqn:?
  | |- context [srv_create ?s ?kw ?r] =>
      destruct (srv_create s kw r) as [[?|?] ?] eqn:?
  | |- context [srv_update ?s ?kw ?r] =>
      destruct (srv_update s kw r) as [[?|?] ?] eqn:?
  | |- context [srv_delete ?s ?kw ?r] =>
      destruct (srv_delete s kw r) as [[?|[]] ?] eqn:?
  | |- context [srv_test_echo ?s ?k ?r] =>
      destruct (srv_test_echo s k r) as [[?|[]] ?] eqn:?
  | |- context [List.find ?f ?l] =>
      destruct (List.find f l) eqn:?
  | |- context [String.eqb ?a ?b] =>
      destruct (String.eqb a b) eqn:?
  | |- context [label_differs ?a ?b || throttle_differs ?c ?d] =>
      destruct (label_differs a b || throttle_differs c d) eqn:?
  end; simpl.

Ltac all_paths := unfold_run; unfold_calls; repeat answer.

(** ** Properties of a run against an arbitrary remote service *)

Section Properties.

Context {R : Type}.
Variable srv : Server R.

Lemma writes_app (tr1 tr2 : list event) :
  writes (tr1 ++ tr2) = writes tr1 ++ writes tr2.
Proof. unfold writes. apply List.filter_app. Qed.

(** A lookup is one call, and that call is not a write. *)
Lemma find_one_read node_balancer_id name (w w1 : world R) res :
  linode_find_nodebalancer srv node_balancer_id name w = (res, w1) ->
  exists ev,
    trace w1 = trace w ++ [ev] /\
    is_write (ev_method ev) = false /\
    ev_error ev = error_of res.
Proof.
  unfold linode_find_nodebalancer, bind, call, ret.
  destruct node_balancer_id as [i|].
  - destruct (srv_find srv _ (remote w)) as [ans r']. intros [= <- <-].
    eexists. simpl. eauto.
  - destruct (srv_list srv _ (remote w)) as [[e|l] r']; intros [= <- <-];
      eexists; simpl; eauto.
Qed.

Lemma find_no_write node_balancer_id name (r : R) (w1 : world R) res :
  linode_find_nodebalancer srv node_balancer_id name (init r) = (res, w1) ->
  writes (trace w1) = [].
Proof.
  intros H. apply find_one_read in H as (ev & Htr & Hrd & _).
  rewrite Htr. simpl. unfold writes. simpl. by rewrite Hrd.
Qed.

End Properties.

Section Claims.

Context {R : Type}.
Variable srv : Server R.

(** C1. When the lookup yields a resource whose label equals the desired
    name and whose throttle equals the desired throttle, and the desired
    state is present, the run issues no write call, returns that very
    resource and reports changed=false. *)
Theorem converged_resource_is_left_alone
    (name : option string) (node_balancer_id : option Z)
    (datacenter_id paymentterm client_conn_throttle : Z)
    (r : R) (nb : NodeBalancer) (w1 : world R) :
  linode_find_nodebalancer srv node_balancer_id name (init r)
    = (inr (Some nb), w1) ->
  Some (LABEL nb) = name ->
  CLIENTCONNTHROTTLE nb = client_conn_throttle ->
  reconcile srv "present" name node_balancer_id datacenter_id paymentterm
      client_conn_throttle r
    = (exit_json false (Some nb) [Some nb], w1) /\
  writes (trace w1) = [].
Proof.
  intros Hfind Hlabel Hthrottle. split.
  - unfold_run. rewrite Hfind. simpl.
    unfold label_differs, throttle_differs.
    rewrite bool_decide_eq_false_2 by (intros Hne; by apply Hne).
    rewrite bool_decide_eq_false_2 by (intros Hne; by apply Hne).
    reflexivity.
  - eapply find_no_write, Hfind.
Qed.

(** C4. With desired state absent: when the lookup yields a resource, the
    run issues exactly one write, the delete call carrying the id of that
    resource, and once the remote has answered it the run reports
    changed=true and no resource; when the lookup yields nothing, the run
    issues no write and reports changed=false and no resource. *)
Theorem absent_deletes_once_or_does_nothing
    (name : option string) (node_balancer_id : option Z)
    (datacenter_id paymentterm client_conn_throttle : Z)
    (r : R) (found : option NodeBalancer) (w1 : world R) :
  linode_find_nodebalancer srv node_balancer_id name (init r)
    = (inr found, w1) ->
  let run := reconcile srv "absent" name node_balancer_id datacenter_id
               paymentterm client_conn_throttle r in
  match found with
  | Some nb =>
      (exists err,
         writes (trace (snd run))
           = [mkEvent nodebalancer_delete
                {[ "NodeBalancerId" := PyInt (NODEBALANCERID nb) ]} err]) /\
      (forall r2,
         srv_delete srv (delete_call_kwargs nb) (remote w1) = (inr tt, r2) ->
         fst run = exit_json true None [None] /\
         remote (snd run) = r2 /\
         writes (trace (snd run))
           = [mkEvent nodebalancer_delete
                {[ "NodeBalancerId" := PyInt (NODEBALANCERID nb) ]} None])
  | None =>
      run = (exit_json false None [None], w1) /\ writes (trace w1) = []
  end.
Proof.
  intros Hfind run. pose proof (find_no_write srv _ _ _ _ _ Hfind) as Hnw.
  subst run. unfold_run. rewrite Hfind. simpl.
  destruct found as [nb|]; [|done].
  unfold call. split.
  - destruct (srv_delete srv _ (remote w1)) as [[e|[]] r2]; simpl;
      rewrite writes_app, Hnw; eexists; reflexivity.
  - intros r2 Hdel. rewrite Hdel. simpl. rewrite writes_app, Hnw. done.
Qed.

(** C5. When the first lookup fails with an API error, the run issues no
    write call and fails with the message built from the provider's error
    code and message.  In every run, an API error of any call ends the
    run: a failed run stops at the call that failed and reports its error,
    and a run that exits normally had no failing call. *)
Theorem api_error_aborts_the_run :
  (forall (state : string) (name : option string) (node_balancer_id : option Z)
          (datacenter_id paymentterm client_conn_throttle : Z)
          (r : R) (e : ApiError) (w1 : world R),
     linode_find_nodebalancer srv node_balancer_id name (init r)
       = (inl e, w1) ->
     reconcile srv state name node_balancer_id datacenter_id paymentterm
         client_conn_throttle r
       = (fail_json ("FATAL: Code [" +:+ str (ERRORCODE e) +:+ "] - "
                       +:+ ERRORMESSAGE e), w1) /\
     writes (trace w1) = [] /\ length (trace w1) = 1%nat) /\
  (forall (state : string) (name : option string) (node_balancer_id : option Z)
          (datacenter_id paymentterm client_conn_throttle : Z) (r : R),
     let run := reconcile srv state name node_balancer_id datacenter_id
                  paymentterm client_conn_throttle r in
     match fst run with
     | exit_json _ _ _ => Forall ev_ok (trace (snd run))
     | fail_json msg => aborted_at_error (trace (snd run)) msg
     end).
Proof.
  split.
  - intros state name id dc pt t r e w1 Hfind. split; [|split].
    + unfold_run. by rewrite Hfind.
    + eapply find_no_write, Hfind.
    + apply find_one_read in Hfind as (ev & -> & _). done.
  - intros state name id dc pt t r run. subst run.
    destruct id as [i|]; all_paths;
      first
        [ by repeat constructor
        | by (eexists [], _, _; repeat split; repeat constructor)
        | by (eexists [_], _, _; repeat split; repeat constructor)
        | by (eexists [_; _], _, _; repeat split; repeat constructor) ].
Qed.

(** C8. A run that exits normally emits changed, instance and instances,
    and instances is the one-element list holding the value of instance. *)
Theorem result_lists_the_instance_once
    (state : string) (name : option string) (node_balancer_id : option Z)
    (datacenter_id paymentterm client_conn_throttle : Z) (r : R)
    (changed : bool) (instance : option NodeBalancer)
    (instances : list (option NodeBalancer)) :
  fst (reconcile srv state name node_balancer_id datacenter_id paymentterm
         client_conn_throttle r)
    = exit_json changed instance instances ->
  instances = [instance].
Proof.
  destruct node_balancer_id as [i|]; all_paths; congruence.
Qed.

(** C10. In a run that exits normally, changed is true exactly when the
    run issued a write call (create, update or delete). *)
Theorem changed_iff_a_write_was_issued
    (state : string) (name : option string) (node_balancer_id : option Z)
    (datacenter_id paymentterm client_conn_throttle : Z) (r : R)
    (changed : bool) (instance : option NodeBalancer)
    (instances : list (option NodeBalancer)) :
  let run := reconcile srv state name node_balancer_id datacenter_id
               paymentterm client_conn_throttle r in
  fst run = exit_json changed instance instances ->
  (changed = true <-> writes (trace (snd run)) <> []) /\
  (writes (trace (snd run)) = [] -> changed = false).
Proof.
  intros run. subst run.
  destruct node_balancer_id as [i|]; all_paths; intros [= <- <- <-];
    (split; [split|]); done.
Qed.

(** C9. With a node_balancer_id and no name, desired state present and a
    resource found: the label comparison against the null name always
    yields a difference, so the run issues exactly one write, an update
    carrying the null name as Label; once the remote has answered the
    update and the lookup after it, the run reports changed=true; and no
    such run ever reports changed=false. *)
Theorem id_only_lookup_always_updates
    (i : Z) (datacenter_id paymentterm client_conn_throttle : Z)
    (r : R) (nb : NodeBalancer) (w1 : world R) :
  linode_find_nodebalancer srv (Some i) None (init r) = (inr (Some nb), w1) ->
  let run := reconcile srv "present" None (Some i) datacenter_id paymentterm
               client_conn_throttle r in
  let update_kwargs : kwargs :=
    <[ "NodeBalancerID" := PyInt (NODEBALANCERID nb) ]>
      (<[ "ClientConnThrottle" := PyInt client_conn_throttle ]>
         {[ "Label" := PyNone ]}) in
  label_differs nb None = true /\
  (exists err,
     writes (trace (snd run)) = [mkEvent nodebalancer_update update_kwargs err]) /\
  (forall new r2 inst w3,
     srv_update srv update_kwargs (remote w1) = (inr new, r2) ->
     linode_find_nodebalancer srv (Some (NodeBalancerID new)) None
       {| remote := r2;
          trace := trace w1 ++ [mkEvent nodebalancer_update update_kwargs None] |}
       = (inr inst, w3) ->
     run = (exit_json true inst [inst], w3)) /\
  (forall changed inst insts,
     fst run = exit_json changed inst insts -> changed = true).
Proof.
  intros Hfind run kw. subst run kw.
  pose proof (find_no_write srv _ _ _ _ _ Hfind) as Hnw.
  assert (Hdiff : label_differs nb None = true) by done.
  split; [done|].
  unfold_run. rewrite Hfind. simpl.
  unfold update_call_kwargs. rewrite Hdiff. simpl.
  unfold linode_find_nodebalancer, call, ret. simpl.
  destruct (srv_update srv _ (remote w1)) as [[e|new] r2] eqn:Hupd; simpl.
  - split; [|split]; [| intros; congruence | intros; congruence].
    rewrite writes_app, Hnw. by eexists.
  - destruct (srv_find srv _ r2) as [[e|inst] r3] eqn:Hre; simpl;
      rewrite !writes_app, Hnw; simpl.
    all: split; [by eexists|split]; [|intros; congruence].
    all: intros new' r2' inst' w3' [= <- <-]; rewrite Hre; intros ?;
      by simplify_eq.
Qed.

(** C7, as amended.  A run of [linodeNodeBalancers] issues at most 3 remote
    calls: one lookup, at most one write (create, update or delete), and at
    most one lookup that reads the result back, which follows only a create
    or an update.  A whole invocation through [main] issues one more call
    before that, the [test_echo] check, so at most 4 remote calls, and
    still at most one write. *)
Theorem at_most_three_calls_after_the_echo_test :
  (forall (state : string) (name : option string) (node_balancer_id : option Z)
          (datacenter_id paymentterm client_conn_throttle : Z) (r : R),
     let tr := trace (snd (reconcile srv state name node_balancer_id
                             datacenter_id paymentterm client_conn_throttle r)) in
     lookup_write_refetch tr /\ (length tr <= 3)%nat /\
     (length (writes tr) <= 1)%nat) /\
  (forall (import_error : option string) (p : params)
          (environ : gmap string string) (r : R),
     let tr := trace (snd (main srv import_error p environ r)) in
     (tr = [] \/
      (exists echo,
         ev_method echo = test_echo /\ ~ ev_ok echo /\ tr = [echo]) \/
      (exists echo rest,
         ev_method echo = test_echo /\ ev_ok echo /\ tr = echo :: rest /\
         lookup_write_refetch rest)) /\
     (length tr <= 4)%nat /\ (length (writes tr) <= 1)%nat).
Proof.
  assert (Hshape : forall tr : list event,
             lookup_write_refetch tr ->
             (length tr <= 3)%nat /\ (length (writes tr) <= 1)%nat).
  { intros tr (l & Hl & Hcases).
    assert (Hrd : is_write (ev_method l) = false)
      by (destruct (ev_method l); done).
    destruct Hcases
      as [->|[(w & Hw & _ & ->)|(w & f & Hw & _ & _ & Hf & ->)]];
      unfold writes; simpl; rewrite Hrd, ?Hw, ?Hf; simpl; [lia|lia|].
    destruct Hw as [-> | ->]; simpl; lia. }
  assert (Hrun : forall state name id dc pt t (w0 : world R),
             exists tr, trace (snd (linodeNodeBalancers srv state name id dc pt t w0))
                        = trace w0 ++ tr /\ lookup_write_refetch tr).
  { intros state name id dc pt t w0.
    destruct id as [i|]; all_paths; rewrite <- ?app_assoc; simpl;
      eexists; (split; [reflexivity|]); eexists;
      (split; [| first
         [ left; reflexivity
         | right; left; eexists; split_and!; [| |reflexivity];
           first [reflexivity | by unfold ev_ok]
         | right; right; eexists _, _; split_and!; [| | | |reflexivity];
           first [reflexivity | by unfold ev_ok | by left | by right] ] ]);
      reflexivity. }
  split.
  - intros state name id dc pt t r tr.
    destruct (Hrun state name id dc pt t (init r)) as (tr' & Htr & Hs).
    simpl in Htr. subst tr. unfold reconcile. rewrite Htr.
    split; [done|by apply Hshape].
  - intros imp p env r tr. subst tr. unfold main.
    destruct imp as [err|]; [simpl; split; [by left|lia]|].
    match goal with
    | |- context [match ?k with Some _ => _ | None => (fail_json _, _) end] =>
        destruct k as [api_key|]
    end; [|simpl; split; [by left|lia]].
    unfold call, init. simpl.
    destruct (srv_test_echo srv api_key r) as [[e|[]] r1]; simpl.
    + split; [|lia]. right. left. eexists.
      split; [|split; [|reflexivity]]; [reflexivity|]. by intros ?.
    + match goal with
      | |- context [linodeNodeBalancers srv ?a ?b ?c ?d ?e ?f ?w] =>
          destruct (Hrun a b c d e f w) as (tr' & -> & Hs)
      end.
      simpl. destruct (Hshape _ Hs) as [Hlen Hwr]. split; [|split].
      * right. right. eexists _, tr'.
        split; [|split; [|split; [reflexivity|done]]]; [reflexivity|done..].
      * simpl. lia.
      * unfold writes in *. simpl. lia.
Qed.

End Claims.

(** ** Runs against the model of the remote service *)

Module RemoteFacts.
Import Remote.

Lemma kw_get_find (v : pyval) :
  kw_get "NodeBalancerID" {[ "NodeBalancerID" := v ]} = Some v.
Proof. reflexivity. Qed.

Lemma kw_get_delete (v : pyval) :
  kw_get "NodeBalancerID" {[ "NodeBalancerId" := v ]} = Some v.
Proof. reflexivity. Qed.

Lemma kw_get_update (a b : pyval) (l : option pyval) :
  let kw : kwargs :=
    <[ "NodeBalancerID" := a ]>
      (<[ "ClientConnThrottle" := b ]>
         (match l with Some c => {[ "Label" := c ]} | None => ∅ end)) in
  kw_get "NodeBalancerID" kw = Some a /\
  kw_get "ClientConnThrottle" kw = Some b /\
  kw_get "Label" kw = l.
Proof. destruct l; vm_compute; done. Qed.

Lemma kw_get_create (a b c : pyval) :
  let kw : kwargs :=
    <[ "DatacenterID" := a ]> (<[ "PaymentTerm" := b ]> {[ "Label" := c ]}) in
  kw_get "DatacenterID" kw = Some a /\
  kw_get "PaymentTerm" kw = Some b /\
  kw_get "Label" kw = Some c.
Proof. vm_compute; done. Qed.

Lemma model_find_id (i : Z) (st : store) :
  model_find {[ "NodeBalancerID" := PyInt i ]} st = (inr (find_by_id i st), st).
Proof. unfold model_find. by rewrite kw_get_find. Qed.

(** In the model a lookup always succeeds and leaves the store as it is. *)
Lemma lookup_run node_balancer_id name (w : world store) :
  linode_find_nodebalancer server node_balancer_id name w
    = (inr (model_lookup node_balancer_id name (remote w)),
       {| remote := remote w;
          trace := trace w ++ [lookup_event node_balancer_id] |}).
Proof.
  unfold linode_find_nodebalancer, bind, call, ret.
  destruct node_balancer_id as [i|]; simpl; [|done].
  unfold model_find. by rewrite kw_get_find.
Qed.

Lemma lookup_In node_balancer_id name st nb :
  model_lookup node_balancer_id name st = Some nb -> In nb (balancers st).
Proof.
  unfold model_lookup, find_by_id.
  destruct node_balancer_id; intros H; by apply List.find_some in H as [? _].
Qed.

Lemma find_by_id_In (l : list NodeBalancer) nb :
  NoDup (List.map NODEBALANCERID l) -> In nb l ->
  List.find (has_id (NODEBALANCERID nb)) l = Some nb.
Proof.
  induction l as [|x l IH]; simpl; [done|].
  intros Hnd [->|Hin].
  - unfold has_id. by rewrite bool_decide_eq_true_2.
  - apply NoDup_cons in Hnd as [Hx Hnd].
    unfold has_id at 1. rewrite bool_decide_eq_false_2; [by apply IH|].
    intros Heq. apply Hx. rewrite Heq. apply list_elem_of_In.
    by apply List.in_map.
Qed.

Lemma find_map_preserving {A} (p : A -> bool) (g : A -> A) (l : list A) :
  (forall x, p (g x) = p x) ->
  List.find p (List.map g l) = g <$> List.find p l.
Proof.
  intros Hp. induction l as [|x l IH]; simpl; [done|].
  rewrite Hp. by destruct (p x).
Qed.

Lemma find_app_last {A} (p : A -> bool) (l : list A) (x : A) :
  List.find p l = None -> p x = true -> List.find p (l ++ [x]) = Some x.
Proof.
  intros Hl Hx. induction l as [|y l IH]; simpl in *; [by rewrite Hx|].
  destruct (p y); [done|by apply IH].
Qed.

Lemma find_none_below (l : list NodeBalancer) (i : Z) :
  Forall (fun nb => NODEBALANCERID nb < i) l ->
  List.find (has_id i) l = None.
Proof.
  induction 1 as [|x l Hx _ IH]; simpl; [done|].
  unfold has_id at 1. rewrite bool_decide_eq_false_2; [done|lia].
Qed.

Lemma find_filter_out {A} (p q : A -> bool) (l : list A) :
  (forall x, In x l -> p x = true -> q x = false) ->
  List.find p (List.filter q l) = None.
Proof.
  intros H. induction l as [|x l IH]; simpl; [done|].
  destruct (q x) eqn:Hq; simpl.
  - destruct (p x) eqn:Hp.
    + rewrite H in Hq; [done|by left|done].
    + apply IH. intros y Hy. apply H. by right.
  - apply IH. intros y Hy. apply H. by right.
Qed.

Lemma update_kwargs_get nb name t :
  let kw := update_call_kwargs nb name t in
  kw_get "NodeBalancerID" kw = Some (PyInt (NODEBALANCERID nb)) /\
  kw_get "ClientConnThrottle" kw = Some (PyInt t) /\
  kw_get "Label" kw
    = (if label_differs nb name then Some (py_of_name name) else None).
Proof.
  unfold update_call_kwargs. destruct (label_differs nb name).
  - apply (kw_get_update _ _ (Some (py_of_name name))).
  - apply (kw_get_update _ _ None).
Qed.

Lemma update_run nb name t st :
  NoDup (List.map NODEBALANCERID (balancers st)) -> In nb (balancers st) ->
  model_update (update_call_kwargs nb name t) st
    = (inr (mkWriteResponse (NODEBALANCERID nb)), updated nb name t st).
Proof.
  intros Hnd Hin. unfold model_update, find_by_id.
  destruct (update_kwargs_get nb name t) as (-> & _ & _).
  by rewrite find_by_id_In.
Qed.

Lemma apply_update_named nb s t x :
  apply_update (update_call_kwargs nb (Some s) t) x
    = {| NODEBALANCERID := NODEBALANCERID x;
         LABEL := if label_differs nb (Some s) then s else LABEL x;
         CLIENTCONNTHROTTLE := t;
         DATACENTERID := DATACENTERID x;
         PAYMENTTERM := PAYMENTTERM x |}.
Proof.
  unfold apply_update.
  destruct (update_kwargs_get nb (Some s) t) as (_ & -> & ->).
  by destruct (label_differs nb (Some s)).
Qed.

Lemma label_differs_false nb s :
  label_differs nb (Some s) = false -> LABEL nb = s.
Proof.
  unfold label_differs. intros H%bool_decide_eq_false.
  destruct (decide (LABEL nb = s)) as [|Hne]; [done|].
  exfalso. apply H. congruence.
Qed.

Lemma find_updated nb name t st :
  NoDup (List.map NODEBALANCERID (balancers st)) -> In nb (balancers st) ->
  find_by_id (NODEBALANCERID nb) (updated nb name t st)
    = Some (apply_update (update_call_kwargs nb name t) nb).
Proof.
  intros Hnd Hin. unfold find_by_id, updated. simpl.
  rewrite find_map_preserving.
  - rewrite find_by_id_In by done. simpl.
    unfold has_id. by rewrite bool_decide_eq_true_2.
  - intros x. destruct (has_id (NODEBALANCERID nb) x) eqn:Hx; [|done].
    unfold has_id in *. simpl. done.
Qed.



Lemma delete_run nb st :
  NoDup (List.map NODEBALANCERID (balancers st)) -> In nb (balancers st) ->
  model_delete (delete_call_kwargs nb) st = (inr tt, deleted nb st).
Proof.
  intros Hnd Hin. unfold model_delete, delete_call_kwargs, find_by_id.
  rewrite kw_get_delete. by rewrite find_by_id_In.
Qed.

Lemma first_is_only {A} (p : A -> bool) (l : list A) (a x : A) :
  (length (List.filter p l) <= 1)%nat ->
  List.find p l = Some a -> In x l -> p x = true -> x = a.
Proof.
  induction l as [|y l IH]; simpl; [done|].
  destruct (p y) eqn:Hy; simpl.
  - intros Hlen [= <-] [->|Hin] Hx; [done|].
    assert (Hf : In x (List.filter p l)) by (apply List.filter_In; done).
    destruct (List.filter p l); [done|simpl in Hlen; lia].
  - intros Hlen Hfind [->|Hin] Hx; [congruence|by apply IH].
Qed.

(** *** The paths of a run against the model, in closed form *)

Section Paths.

Variables (state : string) (name : option string) (node_balancer_id : option Z).
Variables (dc pt t : Z) (st : store).

Lemma run_converged nb :
  model_lookup node_balancer_id name st = Some nb -> String.eqb state "present" = true ->
  label_differs nb name || throttle_differs nb t = false ->
  reconcile server state name node_balancer_id dc pt t st
  = (exit_json false (Some nb) [Some nb],
         {| remote := st; trace := [lookup_event node_balancer_id] |}).
Proof.
  intros Hf Hs Hd. unfold_run. rewrite lookup_run. simpl.
  by rewrite Hf, Hs, Hd.
Qed.

Lemma run_update nb :
  store_wf st ->
  model_lookup node_balancer_id name st = Some nb -> String.eqb state "present" = true ->
  label_differs nb name || throttle_differs nb t = true ->
  reconcile server state name node_balancer_id dc pt t st
  = (exit_json true
           (Some (apply_update (update_call_kwargs nb name t) nb))
           [Some (apply_update (update_call_kwargs nb name t) nb)],
         {| remote := updated nb name t st;
            trace := [lookup_event node_balancer_id;
                      mkEvent nodebalancer_update
                        (update_call_kwargs nb name t) None;
                      lookup_event (Some (NODEBALANCERID nb))] |}).
Proof.
  intros [Hnd _] Hf Hs Hd.
  pose proof (lookup_In _ _ _ _ Hf) as Hin.
  unfold_run. rewrite lookup_run. simpl. rewrite Hf, Hs, Hd.
  unfold call. simpl. rewrite update_run by done. simpl.
  rewrite model_find_id. simpl. by rewrite find_updated.
Qed.

Lemma run_delete nb :
  store_wf st ->
  model_lookup node_balancer_id name st = Some nb -> String.eqb state "present" = false ->
  String.eqb state "absent" = true ->
  reconcile server state name node_balancer_id dc pt t st
  = (exit_json true None [None],
         {| remote := deleted nb st;
            trace := [lookup_event node_balancer_id;
                      mkEvent nodebalancer_delete (delete_call_kwargs nb) None] |}).
Proof.
  intros [Hnd _] Hf Hs Ha.
  pose proof (lookup_In _ _ _ _ Hf) as Hin.
  unfold_run. rewrite lookup_run. simpl. rewrite Hf, Hs, Ha.
  unfold call. simpl. by rewrite delete_run.
Qed.

Lemma run_other_state nb :
  model_lookup node_balancer_id name st = Some nb -> String.eqb state "present" = false ->
  String.eqb state "absent" = false ->
  reconcile server state name node_balancer_id dc pt t st
  = (exit_json false (Some nb) [Some nb],
         {| remote := st; trace := [lookup_event node_balancer_id] |}).
Proof.
  intros Hf Hs Ha. unfold_run. rewrite lookup_run. simpl.
  by rewrite Hf, Hs, Ha.
Qed.


Lemma run_nothing :
  model_lookup node_balancer_id name st = None -> String.eqb state "present" = false ->
  reconcile server state name node_balancer_id dc pt t st
  = (exit_json false None [None],
         {| remote := st; trace := [lookup_event node_balancer_id] |}).
Proof.
  intros Hf Hs. unfold_run. rewrite lookup_run. simpl.
  by rewrite Hf, Hs.
Qed.

End Paths.

(** *** What the next lookup finds after a write *)



Lemma lookup_by_id_id i name st nb :
  model_lookup (Some i) name st = Some nb -> NODEBALANCERID nb = i.
Proof.
  simpl. unfold find_by_id. intros [_ H]%List.find_some.
  unfold has_id in H. by apply bool_decide_eq_true in H.
Qed.




Lemma lookup_after_delete node_balancer_id s st nb :
  model_lookup node_balancer_id (Some s) st = Some nb ->
  (node_balancer_id = None -> at_most_one_named s st) ->
  model_lookup node_balancer_id (Some s) (deleted nb st) = None.
Proof.
  intros Hf Hone. destruct node_balancer_id as [i|].
  - apply lookup_by_id_id in Hf as <-. simpl. unfold find_by_id, deleted. simpl.
    apply find_filter_out. intros x _ ->. done.
  - simpl in *. apply find_filter_out. intros x Hin Hx.
    rewrite (first_is_only _ _ nb x (Hone eq_refl) Hf Hin Hx).
    unfold has_id. by rewrite bool_decide_eq_true_2.
Qed.


End RemoteFacts.

(** C2, as amended.  When the lookup yields a resource, the desired state is
    present and the label or the throttle differs, the run issues exactly
    one write, an update call.  That call carries Label exactly when the
    label differs, carries ClientConnThrottle in any case, and carries
    nothing besides these two and NodeBalancerID, so neither DatacenterID
    nor PaymentTerm.  Against the model of the remote service the run then
    reports changed=true and the updated resource and, when a name is
    given, the label of that resource is the desired name. *)
Theorem update_sends_the_label_only_when_it_differs :
  (forall (R : Type) (srv : Server R) (name : option string)
          (node_balancer_id : option Z)
          (datacenter_id paymentterm client_conn_throttle : Z)
          (r : R) (nb : NodeBalancer) (w1 : world R),
     linode_find_nodebalancer srv node_balancer_id name (init r)
       = (inr (Some nb), w1) ->
     label_differs nb name || throttle_differs nb client_conn_throttle = true ->
     let run := reconcile srv "present" name node_balancer_id datacenter_id
                  paymentterm client_conn_throttle r in
     let kw := update_call_kwargs nb name client_conn_throttle in
     (exists err,
        writes (trace (snd run)) = [mkEvent nodebalancer_update kw err]) /\
     kw !! "Label"
       = (if label_differs nb name then Some (py_of_name name) else None) /\
     kw !! "ClientConnThrottle" = Some (PyInt client_conn_throttle) /\
     kw !! "NodeBalancerID" = Some (PyInt (NODEBALANCERID nb)) /\
     kw !! "DatacenterID" = None /\ kw !! "PaymentTerm" = None /\
     dom kw ⊆ {[ "NodeBalancerID"; "ClientConnThrottle"; "Label" ]}) /\
  (forall (st : Remote.store) (name : option string)
          (node_balancer_id : option Z)
          (datacenter_id paymentterm client_conn_throttle : Z)
          (nb : NodeBalancer) (w1 : world Remote.store),
     Remote.store_wf st ->
     linode_find_nodebalancer Remote.server node_balancer_id name (init st)
       = (inr (Some nb), w1) ->
     label_differs nb name || throttle_differs nb client_conn_throttle
       = true ->
     let run := reconcile Remote.server "present" name node_balancer_id
                  datacenter_id paymentterm client_conn_throttle st in
     exists nb',
       fst run = exit_json true (Some nb') [Some nb'] /\
       (forall s, name = Some s -> LABEL nb' = s) /\
       CLIENTCONNTHROTTLE nb' = client_conn_throttle /\
       NODEBALANCERID nb' = NODEBALANCERID nb /\
       trace (snd run)
         = [Remote.lookup_event node_balancer_id;
            mkEvent nodebalancer_update
              (update_call_kwargs nb name client_conn_throttle) None;
            Remote.lookup_event (Some (NODEBALANCERID nb))]).
Proof.
  split.
  - intros R srv name id dc pt t r nb w1 Hfind Hdiff run kw.
    pose proof (find_no_write srv _ _ _ _ _ Hfind) as Hnw.
    split.
    + subst run kw. unfold_run. rewrite Hfind. simpl. rewrite Hdiff.
      unfold linode_find_nodebalancer, call, ret. simpl.
      destruct (srv_update srv _ (remote w1)) as [[e|new] r2]; simpl;
        [rewrite writes_app, Hnw; by eexists|].
      destruct (srv_find srv _ r2) as [[e|inst] r3]; simpl;
        rewrite !writes_app, Hnw; by eexists.
    + subst kw. unfold update_call_kwargs.
      destruct (label_differs nb name); split_and!; try done;
        rewrite !dom_insert_L, ?dom_singleton_L, ?dom_empty_L;
        intros k; rewrite !elem_of_union, !elem_of_singleton, ?elem_of_empty;
        tauto.
  - intros st name id dc pt t nb w1 Hwf Hfind Hdiff run.
    rewrite RemoteFacts.lookup_run in Hfind. simpl in Hfind.
    injection Hfind as Hfound _.
    subst run.
    rewrite (RemoteFacts.run_update "present" name id dc pt t st nb
               Hwf Hfound eq_refl Hdiff).
    simpl. eexists. split; [reflexivity|]. split_and!; [| |done|done].
    + intros s ->. rewrite RemoteFacts.apply_update_named. simpl.
      destruct (label_differs nb (Some s)) eqn:Hl; [done|].
      by apply RemoteFacts.label_differs_false.
    + unfold Remote.apply_update. simpl.
      by destruct (RemoteFacts.update_kwargs_get nb name t) as (_ & -> & _).
Qed.

(** ** The claims at concrete inputs *)

Lemma one_balancer_wf : Remote.store_wf one_balancer.
Proof. split; [apply NoDup_singleton | repeat constructor]. Defined.

Lemma no_balancer_wf : Remote.store_wf no_balancer.
Proof. split; constructor. Defined.

(** The store holds "web" with throttle 5; asking for "web" with throttle 5
    is a lookup and nothing else. *)
Lemma converged_resource_is_left_alone_witness :
  reconcile Remote.server "present" (Some "web") None 7 1 5 one_balancer
    = (exit_json false (Some web) [Some web],
       {| remote := one_balancer;
          trace := [mkEvent nodebalancer_list ∅ None] |}) /\
  writes [mkEvent nodebalancer_list ∅ None] = [].
Proof.
  apply (converged_resource_is_left_alone Remote.server (Some "web") None
           7 1 5 one_balancer web
           {| remote := one_balancer;
              trace := [mkEvent nodebalancer_list ∅ None] |});
    vm_compute; reflexivity.
Defined.

(** The label differs ("www" wanted): one update carrying Label, and the
    final label is "www". *)
Lemma update_sends_the_label_only_when_it_differs_witness :
  exists nb',
    fst (reconcile Remote.server "present" (Some "www") (Some 7) 7 1 5
           one_balancer)
      = exit_json true (Some nb') [Some nb'] /\
    LABEL nb' = "www" /\
    CLIENTCONNTHROTTLE nb' = 5 /\
    NODEBALANCERID nb' = 7 /\
    trace (snd (reconcile Remote.server "present" (Some "www") (Some 7) 7 1 5
                  one_balancer))
      = [Remote.lookup_event (Some 7);
         mkEvent nodebalancer_update (update_call_kwargs web (Some "www") 5) None;
         Remote.lookup_event (Some 7)].
Proof.
  destruct (proj2 update_sends_the_label_only_when_it_differs
              one_balancer (Some "www") (Some 7) 7 1 5 web
              {| remote := one_balancer;
                 trace := [Remote.lookup_event (Some 7)] |}
              one_balancer_wf ltac:(vm_compute; reflexivity)
              ltac:(vm_compute; reflexivity))
    as (nb' & Hrun & Hlabel & Ht & Hid & Htr).
  exists nb'.
  exact (conj Hrun (conj (Hlabel "www" eq_refl) (conj Ht (conj Hid Htr)))).
Defined.

(** Deleting "web": one delete call by id 7, changed=true, no resource. *)
Lemma absent_deletes_once_or_does_nothing_witness :
  let run := reconcile Remote.server "absent" (Some "web") None 7 1 5
               one_balancer in
  fst run = exit_json true None [None] /\
  remote (snd run) = Remote.mkStore [] 8 /\
  writes (trace (snd run))
    = [mkEvent nodebalancer_delete {[ "NodeBalancerId" := PyInt 7 ]} None].
Proof.
  apply (proj2 (absent_deletes_once_or_does_nothing Remote.server (Some "web")
                  None 7 1 5 one_balancer (Some web)
                  {| remote := one_balancer;
                     trace := [mkEvent nodebalancer_list ∅ None] |}
                  ltac:(vm_compute; reflexivity))).
  vm_compute; reflexivity.
Defined.

(** During an outage the lookup fails: no write, and the message carries
    the provider's code and text. *)
Lemma api_error_aborts_the_run_witness :
  reconcile Outage.server "present" (Some "web") None 7 1 5 tt
    = (fail_json "FATAL: Code [4] - Authentication failed",
       {| remote := tt;
          trace := [mkEvent nodebalancer_list ∅ (Some Outage.down)] |}) /\
  writes [mkEvent nodebalancer_list ∅ (Some Outage.down)] = [] /\
  length [mkEvent nodebalancer_list ∅ (Some Outage.down)] = 1%nat.
Proof.
  apply (proj1 (api_error_aborts_the_run Outage.server) "present" (Some "web")
           None 7 1 5 tt Outage.down
           {| remote := tt;
              trace := [mkEvent nodebalancer_list ∅ (Some Outage.down)] |}).
  vm_compute; reflexivity.
Defined.

(** The result of the run on the converged store lists its instance once. *)
Lemma result_lists_the_instance_once_witness :
  exists changed instance instances,
    fst (reconcile Remote.server "present" (Some "web") None 7 1 5 one_balancer)
      = exit_json changed instance instances /\
    instance = Some web /\ instances = [instance].
Proof.
  exists false, (Some web), [Some web].
  split; [vm_compute; reflexivity|]. split; [reflexivity|].
  apply (result_lists_the_instance_once Remote.server "present" (Some "web")
           None 7 1 5 one_balancer false (Some web) [Some web]).
  vm_compute; reflexivity.
Defined.

(** The deleting run reports changed=true and did issue a write. *)
Lemma changed_iff_a_write_was_issued_witness :
  let run := reconcile Remote.server "absent" (Some "web") None 7 1 5
               one_balancer in
  (true = true <-> writes (trace (snd run)) <> []) /\
  (writes (trace (snd run)) = [] -> true = false).
Proof.
  apply (changed_iff_a_write_was_issued Remote.server "absent" (Some "web")
           None 7 1 5 one_balancer true None [None]).
  vm_compute; reflexivity.
Defined.

(** Balancer 7 targeted by id alone, with label and throttle as they are on
    the remote: the run still updates and never reports changed=false. *)
Lemma id_only_lookup_always_updates_witness :
  let run := reconcile Remote.server "present" None (Some 7) 7 1 5
               one_balancer in
  label_differs web None = true /\
  (exists err,
     writes (trace (snd run))
       = [mkEvent nodebalancer_update
            (<[ "NodeBalancerID" := PyInt 7 ]>
               (<[ "ClientConnThrottle" := PyInt 5 ]> {[ "Label" := PyNone ]}))
            err]) /\
  (forall changed inst insts,
     fst run = exit_json changed inst insts -> changed = true).
Proof.
  destruct (id_only_lookup_always_updates Remote.server 7 7 1 5 one_balancer
              web
              {| remote := one_balancer;
                 trace := [Remote.lookup_event (Some 7)] |}
              ltac:(vm_compute; reflexivity))
    as (Hdiff & Hwrites & _ & Hchanged).
  exact (conj Hdiff (conj Hwrites Hchanged)).
Defined.

(** ** Where the claims as first stated fail *)

(** C7 as first stated: at most 3 remote calls per invocation.  Creating a
    balancer through [main] takes 4: the echo test, the lookup, the create
    call and the lookup of the created resource. *)
Lemma main_issues_four_calls :
  let tr := trace (snd (main Remote.server None
                          (mkParams (Some "key") (Some "web") None "present" 7 1 0)
                          ∅ no_balancer)) in
  List.map ev_method tr
    = [test_echo; nodebalancer_list; nodebalancer_create; nodebalancer_find] /\
  ~ (length tr <= 3)%nat.
Proof.
  split; [vm_compute; reflexivity|]. vm_compute. lia.
Qed.

(** A resource created with a non-zero desired throttle starts at throttle
    0, so the next run updates it and reports changed=true again. *)
Example create_with_throttle_takes_two_runs :
  let run1 := reconcile Remote.server "present" (Some "db") None 7 1 5
                one_balancer in
  let run2 := reconcile Remote.server "present" (Some "db") None 7 1 5
                (remote (snd run1)) in
  fst run1 = exit_json true (Some (mkNodeBalancer 8 "db" 0 7 1))
                            [Some (mkNodeBalancer 8 "db" 0 7 1)] /\
  fst run2 = exit_json true (Some (mkNodeBalancer 8 "db" 5 7 1))
                            [Some (mkNodeBalancer 8 "db" 5 7 1)].
Proof. split; vm_compute; reflexivity. Qed.

(** ** Further properties of [main], [handle_api_error] and
    [linodeNodeBalancers] *)

Section MoreProperties.

Context {R : Type}.
Variable srv : Server R.

(** The calls already recorded play no part in a run: it appends to them. *)
Lemma run_appends_to_trace (state : string) (name : option string)
    (node_balancer_id : option Z) (dc pt t : Z) (w : world R) :
  linodeNodeBalancers srv state name node_balancer_id dc pt t w
  = (fst (reconcile srv state name node_balancer_id dc pt t (remote w)),
     {| remote := remote (snd (reconcile srv state name node_balancer_id dc pt t
                                 (remote w)));
        trace := trace w ++
                 trace (snd (reconcile srv state name node_balancer_id dc pt t
                               (remote w))) |}).
Proof.
  destruct node_balancer_id as [i|]; all_paths;
    rewrite <- ?app_assoc; reflexivity.
Qed.

(** X1. Once the arguments are accepted, [main] gives up before any remote
    call when the client library is missing, and when no key can be found
    (the api_key parameter missing or empty and LINODE_API_KEY unset): it
    fails with the import error followed by the installation hint,
    respectively with the message that the key could not be loaded, issues
    no call and leaves the remote state alone. *)
Theorem main_calls_nothing_without_library_or_key
    (import_error : option string) (p : params)
    (environ : gmap string string) (r : R) :
  let run := main srv import_error p environ r in
  (forall err, import_error = Some err ->
     run = (fail_json (err +:+ " (pip install linode-python)"),
            {| remote := r; trace := [] |})) /\
  (import_error = None ->
   (p_api_key p = None \/ p_api_key p = Some "") ->
   environ !! "LINODE_API_KEY" = None ->
   run = (fail_json "Unable to load LINODE_API_KEY",
          {| remote := r; trace := [] |})).
Proof.
  intros run. subst run. unfold main. split.
  - by intros err ->.
  - intros -> [Hk|Hk] Henv; by rewrite Hk, ?Henv.
Qed.

(** X2. The key given as a parameter, when not empty, is the only key used:
    the environment plays no part in the run.  A missing or empty key
    parameter is replaced by the environment variable: when that is set to
    a non-empty key, the run is the one with that key given as parameter. *)
Theorem parameter_key_wins_over_environment
    (import_error : option string) (name : option string)
    (node_balancer_id : option Z) (state : string) (dc pt t : Z)
    (key : string) (r : R) :
  key <> "" ->
  (forall environ environ',
     main srv import_error
       (mkParams (Some key) name node_balancer_id state dc pt t) environ r
     = main srv import_error
         (mkParams (Some key) name node_balancer_id state dc pt t) environ' r) /\
  (forall environ given,
     environ !! "LINODE_API_KEY" = Some key ->
     given = None \/ given = Some "" ->
     main srv import_error
       (mkParams given name node_balancer_id state dc pt t) environ r
     = main srv import_error
         (mkParams (Some key) name node_balancer_id state dc pt t) ∅ r).
Proof.
  intros Hkey. apply String.eqb_neq in Hkey. split.
  - intros environ environ'. unfold main. simpl. by rewrite Hkey.
  - intros environ given Henv [->| ->]; unfold main; simpl;
      by rewrite Henv, Hkey.
Qed.

(** X3. The two formats of a failure of [main].  When the echo test raises
    an API error, [main] fails after that single call with the provider's
    text alone.  When the echo test has passed, a run that ends in
    [fail_json] stopped at a later call that raised an API error, every
    call before that one succeeded, and the message is the
    "FATAL: Code [..] - .." text of that error; a run that ends in
    [exit_json] had no failing call. *)
Theorem main_failure_names_the_failing_call
    (p : params) (environ : gmap string string) (r r1 : R) (key : string) :
  resolved_api_key p environ = Some key ->
  (forall e,
     srv_test_echo srv key r = (inl e, r1) ->
     main srv None p environ r
     = (fail_json (ERRORMESSAGE e),
        {| remote := r1; trace := [mkEvent test_echo ∅ (Some e)] |})) /\
  (srv_test_echo srv key r = (inr tt, r1) ->
   let run := main srv None p environ r in
   let tr := trace (snd run) in
   match fst run with
   | exit_json _ _ _ =>
       Forall ev_ok tr /\ exists rest, tr = mkEvent test_echo ∅ None :: rest
   | fail_json msg =>
       exists evs ev e,
         tr = mkEvent test_echo ∅ None :: evs ++ [ev] /\
         Forall ev_ok evs /\ ev_error ev = Some e /\
         ev_method ev <> test_echo /\ msg = api_error_msg e
   end).
Proof.
  intros Hkey. unfold resolved_api_key in Hkey. split.
  - intros e Hecho. unfold main. rewrite Hkey.
    unfold call, init. simpl. by rewrite Hecho.
  - intros Hecho run tr. subst tr run. unfold main. rewrite Hkey.
    unfold call, init. simpl. rewrite Hecho. simpl.
    destruct (p_node_balancer_id p) as [i|]; all_paths;
      first
        [ by (split; [repeat constructor|by eexists])
        | by (eexists [], _, _; split_and!; repeat constructor)
        | by (eexists [_], _, _; split_and!; repeat constructor)
        | by (eexists [_; _], _, _; split_and!; repeat constructor) ].
Qed.

(** X4. Once the echo test has passed, [main] is [linodeNodeBalancers] on
    the parameters: the same outcome and final remote state as a run of
    [linodeNodeBalancers] started where the echo test left the remote, and
    the same calls after the echo call. *)
Theorem main_is_the_echo_test_then_the_run
    (p : params) (environ : gmap string string) (r r1 : R) (key : string) :
  resolved_api_key p environ = Some key ->
  srv_test_echo srv key r = (inr tt, r1) ->
  let run := reconcile srv (p_state p) (p_name p) (p_node_balancer_id p)
               (p_datacenter_id p) (p_paymentterm p)
               (p_client_conn_throttle p) r1 in
  main srv None p environ r
  = (fst run,
     {| remote := remote (snd run);
        trace := mkEvent test_echo ∅ None :: trace (snd run) |}).
Proof.
  intros Hkey Hecho run. subst run. unfold main.
  unfold resolved_api_key in Hkey. rewrite Hkey.
  unfold call, init. simpl. rewrite Hecho. simpl.
  by rewrite run_appends_to_trace.
Qed.

(** X6. What a run never does: with state present it issues no delete
    call; with state absent it issues neither a create nor an update call;
    with any other state it issues no write at all.  This holds whatever
    the remote answers. *)
Theorem desired_state_limits_the_writes
    (state : string) (name : option string) (node_balancer_id : option Z)
    (dc pt t : Z) (r : R) :
  let tr := trace (snd (reconcile srv state name node_balancer_id dc pt t r)) in
  (state = "present" ->
   Forall (fun ev => ev_method ev <> nodebalancer_delete) tr) /\
  (state = "absent" ->
   Forall (fun ev => ev_method ev <> nodebalancer_create /\
                     ev_method ev <> nodebalancer_update) tr) /\
  (state <> "present" -> state <> "absent" -> writes tr = []).
Proof.
  intros tr. subst tr. split_and!.
  - intros ->. destruct node_balancer_id as [i|]; all_paths;
      by repeat constructor.
  - intros ->. destruct node_balancer_id as [i|]; all_paths;
      by repeat constructor.
  - intros Hp Ha. apply String.eqb_neq in Hp, Ha.
    unfold_run. unfold_calls. rewrite Hp, Ha.
    destruct node_balancer_id as [i|]; repeat answer; done.
Qed.

(** X7. After an update that the remote accepted, the resource is looked up
    by the id which the update call returned, and the run reports
    changed=true with whatever that lookup yields, be it nothing. *)
Theorem update_result_is_read_back_by_returned_id
    (name : option string) (node_balancer_id : option Z) (dc pt t : Z)
    (r : R) (nb : NodeBalancer) (w1 : world R)
    (new : WriteResponse) (r2 r3 : R) (inst : option NodeBalancer) :
  linode_find_nodebalancer srv node_balancer_id name (init r)
    = (inr (Some nb), w1) ->
  label_differs nb name || throttle_differs nb t = true ->
  srv_update srv (update_call_kwargs nb name t) (remote w1) = (inr new, r2) ->
  srv_find srv {[ "NodeBalancerID" := PyInt (NodeBalancerID new) ]} r2
    = (inr inst, r3) ->
  reconcile srv "present" name node_balancer_id dc pt t r
  = (exit_json true inst [inst],
     {| remote := r3;
        trace := trace w1 ++
          [mkEvent nodebalancer_update (update_call_kwargs nb name t) None;
           mkEvent nodebalancer_find
             {[ "NodeBalancerID" := PyInt (NodeBalancerID new) ]} None] |}).
Proof.
  intros Hfind Hdiff Hupd Hre. unfold_run. rewrite Hfind. simpl.
  rewrite Hdiff. unfold linode_find_nodebalancer, call, ret. simpl.
  rewrite Hupd. simpl. rewrite Hre. simpl. by rewrite <- app_assoc.
Qed.

(** X8. A run can fail after it has written.  When the remote accepts the
    update, or the create, and then refuses the lookup that reads the
    result back, the run fails with the message of that lookup's error,
    although the write was carried out: the remote is in the state the
    write and the refused lookup left it in. *)
Theorem failure_after_a_write_keeps_the_write :
  (forall (name : option string) (node_balancer_id : option Z) (dc pt t : Z)
          (r : R) (nb : NodeBalancer) (w1 : world R)
          (new : WriteResponse) (r2 r3 : R) (e : ApiError),
     linode_find_nodebalancer srv node_balancer_id name (init r)
       = (inr (Some nb), w1) ->
     label_differs nb name || throttle_differs nb t = true ->
     srv_update srv (update_call_kwargs nb name t) (remote w1) = (inr new, r2) ->
     srv_find srv {[ "NodeBalancerID" := PyInt (NodeBalancerID new) ]} r2
       = (inl e, r3) ->
     reconcile srv "present" name node_balancer_id dc pt t r
     = (fail_json (api_error_msg e),
        {| remote := r3;
           trace := trace w1 ++
             [mkEvent nodebalancer_update (update_call_kwargs nb name t) None;
              mkEvent nodebalancer_find
                {[ "NodeBalancerID" := PyInt (NodeBalancerID new) ]}
                (Some e)] |})) /\
  (forall (name : option string) (node_balancer_id : option Z) (dc pt t : Z)
          (r : R) (w1 : world R)
          (new : WriteResponse) (r2 r3 : R) (e : ApiError),
     linode_find_nodebalancer srv node_balancer_id name (init r)
       = (inr None, w1) ->
     srv_create srv (create_call_kwargs name dc pt) (remote w1) = (inr new, r2) ->
     srv_find srv {[ "NodeBalancerID" := PyInt (NodeBalancerID new) ]} r2
       = (inl e, r3) ->
     reconcile srv "present" name node_balancer_id dc pt t r
     = (fail_json (api_error_msg e),
        {| remote := r3;
           trace := trace w1 ++
             [mkEvent nodebalancer_create (create_call_kwargs name dc pt) None;
              mkEvent nodebalancer_find
                {[ "NodeBalancerID" := PyInt (NodeBalancerID new) ]}
                (Some e)] |})).
Proof.
  split.
  - intros name id dc pt t r nb w1 new r2 r3 e Hfind Hdiff Hupd Hre.
    unfold_run. rewrite Hfind. simpl.
    rewrite Hdiff. unfold linode_find_nodebalancer, call, ret. simpl.
    rewrite Hupd. simpl. rewrite Hre. simpl. by rewrite <- app_assoc.
  - intros name id dc pt t r w1 new r2 r3 e Hfind Hcreate Hre.
    unfold_run. rewrite Hfind. simpl.
    unfold linode_find_nodebalancer, call, ret. simpl.
    rewrite Hcreate. simpl. rewrite Hre. simpl. by rewrite <- app_assoc.
Qed.

(** X9. A resource that exists is never moved or re-billed: once the lookup
    has found it, datacenter_id and paymentterm play no part in the run. *)
Theorem placement_and_term_are_ignored_once_found
    (state : string) (name : option string) (node_balancer_id : option Z)
    (dc pt dc' pt' t : Z) (r : R) (nb : NodeBalancer) (w1 : world R) :
  linode_find_nodebalancer srv node_balancer_id name (init r)
    = (inr (Some nb), w1) ->
  reconcile srv state name node_balancer_id dc pt t r
  = reconcile srv state name node_balancer_id dc' pt' t r.
Proof.
  intros Hfind. unfold_run. by rewrite Hfind.
Qed.

(** X10. The desired throttle plays no part in a run that finds nothing:
    a resource is created without it.  With a state other than present,
    none of datacenter_id, paymentterm and client_conn_throttle plays a
    part. *)
Theorem throttle_is_ignored_on_creation :
  (forall (state : string) (name : option string)
          (node_balancer_id : option Z) (dc pt t t' : Z) (r : R)
          (w1 : world R),
     linode_find_nodebalancer srv node_balancer_id name (init r)
       = (inr None, w1) ->
     reconcile srv state name node_balancer_id dc pt t r
     = reconcile srv state name node_balancer_id dc pt t' r) /\
  (forall (state : string) (name : option string)
          (node_balancer_id : option Z) (dc pt t dc' pt' t' : Z) (r : R),
     state <> "present" ->
     reconcile srv state name node_balancer_id dc pt t r
     = reconcile srv state name node_balancer_id dc' pt' t' r).
Proof.
  split.
  - intros state name id dc pt t t' r w1 Hfind. unfold_run. by rewrite Hfind.
  - intros state name id dc pt t dc' pt' t' r Hp.
    apply String.eqb_neq in Hp. unfold_run.
    destruct (linode_find_nodebalancer srv id name (init r))
      as [[e|[nb|]] w1]; simpl; by rewrite ?Hp.
Qed.

(** X11. changed=false means untouched: over a remote whose lookups leave
    its state alone, a run that reports changed=false ends with the remote
    in the state it started in. *)
Theorem no_change_reported_means_remote_untouched
    (state : string) (name : option string) (node_balancer_id : option Z)
    (dc pt t : Z) (r : R) (inst : option NodeBalancer)
    (insts : list (option NodeBalancer)) :
  (forall kw r0, snd (srv_find srv kw r0) = r0) ->
  (forall kw r0, snd (srv_list srv kw r0) = r0) ->
  fst (reconcile srv state name node_balancer_id dc pt t r)
    = exit_json false inst insts ->
  remote (snd (reconcile srv state name node_balancer_id dc pt t r)) = r.
Proof.
  intros Hfind Hlist.
  destruct node_balancer_id as [i|]; all_paths; intros [= <- <-];
    repeat match goal with
    | H : srv_find srv ?kw ?r0 = (_, ?r1) |- _ =>
        let E := fresh in
        pose proof (Hfind kw r0) as E; rewrite H in E; simpl in E;
        clear H; subst r1
    | H : srv_list srv ?kw ?r0 = (_, ?r1) |- _ =>
        let E := fresh in
        pose proof (Hlist kw r0) as E; rewrite H in E; simpl in E;
        clear H; subst r1
    end; reflexivity.
Qed.

End MoreProperties.

(** *** The failure message *)

Lemma digits_have_no_bracket (d : Decimal.uint) :
  has_char "]" (NilEmpty.string_of_uint d) = false.
Proof. induction d; simpl; auto. Qed.

Lemma str_has_no_bracket (n : Z) : has_char "]" (str n) = false.
Proof.
  unfold str. destruct n as [|p|p]; simpl; [done| |].
  - destruct (Pos.to_uint p); simpl; auto using digits_have_no_bracket.
  - destruct (Pos.to_uint p); simpl; auto using digits_have_no_bracket.
Qed.

Lemma str_inj (a b : Z) : str a = str b -> a = b.
Proof.
  unfold str. intros H.
  assert (Hnn : forall n, Z.to_int n <> Decimal.Pos Decimal.Nil /\
                          Z.to_int n <> Decimal.Neg Decimal.Nil).
  { intros [|p|p]; simpl; split; try discriminate;
      intros [= Hp]; by apply Unsigned.to_uint_nonnil in Hp. }
  apply (f_equal NilZero.int_of_string) in H.
  rewrite !NilZero.isi in H by apply Hnn.
  injection H as H. apply (f_equal Z.of_int) in H.
  by rewrite !DecimalZ.of_to in H.
Qed.

Lemma append_bracket_inj (s1 s2 r1 r2 : string) :
  has_char "]" s1 = false -> has_char "]" s2 = false ->
  s1 +:+ String "]" r1 = s2 +:+ String "]" r2 ->
  s1 = s2 /\ r1 = r2.
Proof.
  revert s2. induction s1 as [|a s1 IH]; intros [|b s2]; simpl.
  - intros _ _ [= ->]. done.
  - intros _ Hb [= <- _]. done.
  - intros Ha _ [= -> _]. done.
  - intros [_ Ha]%orb_false_elim [_ Hb]%orb_false_elim [= -> Heq].
    destruct (IH _ Ha Hb Heq) as [-> ->]. done.
Qed.

(** X5. The message that [handle_api_error] builds tells the errors apart:
    two API errors give the same failure message only when they have the
    same code and the same text. *)
Theorem failure_message_determines_the_error (e1 e2 : ApiError) :
  api_error_msg e1 = api_error_msg e2 <-> e1 = e2.
Proof.
  split; [|by intros ->].
  destruct e1 as [c1 m1], e2 as [c2 m2]. unfold api_error_msg. simpl.
  intros [= H].
  apply (append_bracket_inj (str c1) (str c2)) in H
    as [Hc [= Hm]]; try apply str_has_no_bracket.
  apply str_inj in Hc. by subst.
Qed.

(** *** Runs against the model of the remote service, continued *)

Module RemoteRuns.
Import Remote RemoteFacts.

Lemma create_run_any name dc pt st :
  exists label,
    model_create (create_call_kwargs name dc pt) st
      = (inr (mkWriteResponse (next_id st)),
         {| balancers := balancers st ++ [mkNodeBalancer (next_id st) label 0 dc pt];
            next_id := next_id st + 1 |}) /\
    (forall s, name = Some s -> label = s).
Proof.
  unfold model_create, create_call_kwargs.
  destruct (kw_get_create (PyInt dc) (PyInt pt) (py_of_name name))
    as (-> & -> & ->).
  destruct name as [s|]; simpl; eexists; (split; [reflexivity|]); congruence.
Qed.

Lemma run_create_any state name node_balancer_id dc pt t st :
  store_wf st ->
  model_lookup node_balancer_id name st = None ->
  String.eqb state "present" = true ->
  exists label,
    reconcile server state name node_balancer_id dc pt t st
    = (exit_json true (Some (mkNodeBalancer (next_id st) label 0 dc pt))
         [Some (mkNodeBalancer (next_id st) label 0 dc pt)],
       {| remote :=
            {| balancers :=
                 balancers st ++ [mkNodeBalancer (next_id st) label 0 dc pt];
               next_id := next_id st + 1 |};
          trace := [lookup_event node_balancer_id;
                    mkEvent nodebalancer_create
                      (create_call_kwargs name dc pt) None;
                    lookup_event (Some (next_id st))] |}) /\
    (forall s, name = Some s -> label = s).
Proof.
  intros [_ Hlt] Hf Hs.
  destruct (create_run_any name dc pt st) as (label & Hcreate & Hlabel).
  exists label. split; [|done].
  unfold_run. rewrite lookup_run. simpl. rewrite Hf, Hs.
  unfold call. simpl. rewrite Hcreate. simpl.
  rewrite model_find_id. simpl. unfold find_by_id. simpl.
  rewrite find_app_last; [done|by apply find_none_below|].
  unfold has_id. by rewrite bool_decide_eq_true_2.
Qed.

Lemma distinct_ids (l : list NodeBalancer) (x nb : NodeBalancer) :
  NoDup (List.map NODEBALANCERID l) -> In x l -> In nb l -> x <> nb ->
  has_id (NODEBALANCERID nb) x = false.
Proof.
  intros Hnd Hx Hnb Hne. unfold has_id. apply bool_decide_eq_false_2.
  intros Heq. apply Hne.
  pose proof (find_by_id_In l x Hnd Hx) as Hfx.
  pose proof (find_by_id_In l nb Hnd Hnb) as Hfnb.
  rewrite Heq in Hfx. congruence.
Qed.

Lemma find_is_some {A} (p : A -> bool) (l : list A) (x : A) :
  In x l -> p x = true -> List.find p l <> None.
Proof.
  intros Hin Hp Hnone. by rewrite (List.find_none _ _ Hnone x Hin) in Hp.
Qed.

Lemma diff_false nb s t :
  label_differs nb (Some s) || throttle_differs nb t = false ->
  LABEL nb = s /\ CLIENTCONNTHROTTLE nb = t.
Proof.
  intros [Hl Ht]%orb_false_elim. split; [by apply label_differs_false|].
  unfold throttle_differs in Ht. apply bool_decide_eq_false in Ht.
  destruct (decide (CLIENTCONNTHROTTLE nb = t)); [done|by destruct Ht].
Qed.

Lemma In_updated nb name t st :
  In nb (balancers st) ->
  In (apply_update (update_call_kwargs nb name t) nb)
     (balancers (updated nb name t st)).
Proof.
  intros Hin. unfold updated. simpl. apply List.in_map_iff.
  exists nb. split; [|done]. unfold has_id. by rewrite bool_decide_eq_true_2.
Qed.

End RemoteRuns.

(** X12. A run against the model touches one balancer at most: every
    balancer of the store other than the one the lookup returned is still
    there afterwards, as it was. *)
Theorem other_balancers_are_left_as_they_were
    (st : Remote.store) (state : string) (name : option string)
    (node_balancer_id : option Z) (dc pt t : Z) (x : NodeBalancer) :
  Remote.store_wf st ->
  In x (Remote.balancers st) ->
  Remote.model_lookup node_balancer_id name st <> Some x ->
  In x (Remote.balancers
          (remote (snd (reconcile Remote.server state name node_balancer_id
                          dc pt t st)))).
Proof.
  intros Hwf Hx Hother.
  destruct (Remote.model_lookup node_balancer_id name st) as [nb|] eqn:Hf.
  - assert (Hne : x <> nb) by congruence.
    pose proof (RemoteFacts.lookup_In _ _ _ _ Hf) as Hnb.
    pose proof (RemoteRuns.distinct_ids _ _ _ (proj1 Hwf) Hx Hnb Hne) as Hid.
    destruct (String.eqb state "present") eqn:Hp.
    + destruct (label_differs nb name || throttle_differs nb t) eqn:Hd.
      * rewrite (RemoteFacts.run_update _ _ _ _ _ _ _ nb Hwf Hf Hp Hd). simpl.
        apply List.in_map_iff. exists x. by rewrite Hid.
      * by rewrite (RemoteFacts.run_converged _ _ _ _ _ _ _ nb Hf Hp Hd).
    + destruct (String.eqb state "absent") eqn:Ha.
      * rewrite (RemoteFacts.run_delete _ _ _ _ _ _ _ nb Hwf Hf Hp Ha). simpl.
        apply List.filter_In. by rewrite Hid.
      * by rewrite (RemoteFacts.run_other_state _ _ _ _ _ _ _ nb Hf Hp Ha).
  - destruct (String.eqb state "present") eqn:Hp.
    + destruct (RemoteRuns.run_create_any state name node_balancer_id dc pt t
                  st Hwf Hf Hp) as (label & -> & _).
      simpl. apply List.in_or_app. by left.
    + by rewrite (RemoteFacts.run_nothing _ _ _ _ _ _ _ Hf Hp).
Qed.

(** X13. With state present and a name, a run against the model always
    ends with a balancer carrying that name: the run exits normally, the
    resource it reports has the desired label and is in the store, so that
    a lookup by the name now finds something.  The reported throttle is the
    desired one when the resource existed before, and 0 when the run
    created it. *)
Theorem present_run_leaves_a_balancer_with_the_name
    (st : Remote.store) (s : string) (node_balancer_id : option Z)
    (dc pt t : Z) :
  Remote.store_wf st ->
  let run := reconcile Remote.server "present" (Some s) node_balancer_id
               dc pt t st in
  exists changed nb,
    fst run = exit_json changed (Some nb) [Some nb] /\
    LABEL nb = s /\
    In nb (Remote.balancers (remote (snd run))) /\
    Remote.model_lookup None (Some s) (remote (snd run)) <> None /\
    (Remote.model_lookup node_balancer_id (Some s) st <> None ->
     CLIENTCONNTHROTTLE nb = t) /\
    (Remote.model_lookup node_balancer_id (Some s) st = None ->
     changed = true /\ CLIENTCONNTHROTTLE nb = 0 /\
     DATACENTERID nb = dc /\ PAYMENTTERM nb = pt).
Proof.
  intros Hwf run. subst run.
  assert (Hnamed : forall (st' : Remote.store) nb,
             LABEL nb = s -> In nb (Remote.balancers st') ->
             Remote.model_lookup None (Some s) st' <> None).
  { intros st' nb Hl Hin. simpl. apply (RemoteRuns.find_is_some _ _ nb Hin).
    apply bool_decide_eq_true_2. by rewrite Hl. }
  destruct (Remote.model_lookup node_balancer_id (Some s) st) as [nb|] eqn:Hf.
  - pose proof (RemoteFacts.lookup_In _ _ _ _ Hf) as Hnb.
    destruct (label_differs nb (Some s) || throttle_differs nb t) eqn:Hd.
    + rewrite (RemoteFacts.run_update "present" (Some s) node_balancer_id dc pt t st
               nb Hwf Hf eq_refl Hd).
      simpl. eexists _, _. split; [reflexivity|].
      assert (Hl : LABEL (Remote.apply_update
                            (update_call_kwargs nb (Some s) t) nb) = s).
      { rewrite RemoteFacts.apply_update_named. simpl.
        destruct (label_differs nb (Some s)) eqn:Hl; [done|].
        by apply RemoteFacts.label_differs_false. }
      pose proof (RemoteRuns.In_updated nb (Some s) t st Hnb) as Hin.
      split_and!;
        [done|done|exact (Hnamed (Remote.updated nb (Some s) t st) _ Hl Hin)
        | |done].
      intros _. by rewrite RemoteFacts.apply_update_named.
    + rewrite (RemoteFacts.run_converged "present" (Some s) node_balancer_id dc pt
               t st nb Hf eq_refl Hd).
      simpl. apply RemoteRuns.diff_false in Hd as [Hl Ht].
      eexists _, _. split; [reflexivity|].
      split_and!; [done|done|exact (Hnamed st nb Hl Hnb)|done|done].
  - destruct (RemoteRuns.run_create_any "present" (Some s) node_balancer_id
                dc pt t st Hwf Hf eq_refl) as (label & -> & Hlabel).
    rewrite (Hlabel s eq_refl). simpl.
    assert (Hin : In (mkNodeBalancer (Remote.next_id st) s 0 dc pt)
                     (Remote.balancers st ++
                      [mkNodeBalancer (Remote.next_id st) s 0 dc pt])).
    { apply List.in_or_app. right. by left. }
    eexists _, _. split; [reflexivity|].
    split_and!; [done|done| |done|done].
    exact (Hnamed (Remote.mkStore _ (Remote.next_id st + 1))
             (mkNodeBalancer (Remote.next_id st) s 0 dc pt) eq_refl Hin).
Qed.

(** X14. With state absent and a name, a run against the model always ends
    without the balancer it looked for: the run exits normally with no
    resource, reports changed=true exactly when the lookup had found one,
    and the same lookup on the store afterwards finds nothing, provided
    that at most one balancer carried the name when the lookup is by
    name. *)
Theorem absent_run_leaves_no_such_balancer
    (st : Remote.store) (s : string) (node_balancer_id : option Z)
    (dc pt t : Z) :
  Remote.store_wf st ->
  (node_balancer_id = None -> Remote.at_most_one_named s st) ->
  let run := reconcile Remote.server "absent" (Some s) node_balancer_id
               dc pt t st in
  exists changed,
    fst run = exit_json changed None [None] /\
    (changed = true <->
     Remote.model_lookup node_balancer_id (Some s) st <> None) /\
    Remote.model_lookup node_balancer_id (Some s) (remote (snd run)) = None.
Proof.
  intros Hwf Hone run. subst run.
  destruct (Remote.model_lookup node_balancer_id (Some s) st) as [nb|] eqn:Hf.
  - rewrite (RemoteFacts.run_delete "absent" (Some s) node_balancer_id dc pt t st
               nb Hwf Hf eq_refl eq_refl).
    simpl. exists true. split_and!; [done|done|].
    by apply RemoteFacts.lookup_after_delete.
  - rewrite (RemoteFacts.run_nothing "absent" (Some s) node_balancer_id dc pt t st
               Hf eq_refl).
    simpl. exists false. split_and!; done.
Qed.

(** *** The further properties at concrete inputs *)

(** No library, or no key anywhere: no call. *)
Lemma main_calls_nothing_without_library_or_key_witness :
  main Remote.server (Some "No module named linode")
    (mkParams (Some "key") (Some "web") None "present" 7 1 0) ∅ one_balancer
  = (fail_json "No module named linode (pip install linode-python)",
     {| remote := one_balancer; trace := [] |}) /\
  main Remote.server None
    (mkParams (Some "") (Some "web") None "present" 7 1 0) ∅ one_balancer
  = (fail_json "Unable to load LINODE_API_KEY",
     {| remote := one_balancer; trace := [] |}).
Proof.
  split.
  - exact (proj1 (main_calls_nothing_without_library_or_key
                    Remote.server (Some "No module named linode")
                    (mkParams (Some "key") (Some "web") None "present" 7 1 0)
                    ∅ one_balancer)
             "No module named linode" eq_refl).
  - apply (proj2 (main_calls_nothing_without_library_or_key
                    Remote.server None
                    (mkParams (Some "") (Some "web") None "present" 7 1 0)
                    ∅ one_balancer)); [reflexivity|by right|reflexivity].
Defined.

(** During an outage the echo test is refused: the message is the
    provider's text, without code. *)
Lemma main_failure_names_the_failing_call_witness :
  main Outage.server None
    (mkParams (Some "key") (Some "web") None "present" 7 1 0) ∅ tt
  = (fail_json "Authentication failed",
     {| remote := tt; trace := [mkEvent test_echo ∅ (Some Outage.down)] |}).
Proof.
  exact (proj1 (main_failure_names_the_failing_call Outage.server
                  (mkParams (Some "key") (Some "web") None "present" 7 1 0)
                  ∅ tt tt "key" eq_refl)
           Outage.down eq_refl).
Defined.

(** The key "abc" from the parameter, or from the environment when the
    parameter is empty. *)
Lemma parameter_key_wins_over_environment_witness :
  main Remote.server None
    (mkParams (Some "abc") (Some "web") None "present" 7 1 5)
    {[ "LINODE_API_KEY" := "xyz" ]} one_balancer
  = main Remote.server None
      (mkParams (Some "abc") (Some "web") None "present" 7 1 5) ∅ one_balancer /\
  main Remote.server None
    (mkParams (Some "") (Some "web") None "present" 7 1 5)
    {[ "LINODE_API_KEY" := "abc" ]} one_balancer
  = main Remote.server None
      (mkParams (Some "abc") (Some "web") None "present" 7 1 5) ∅ one_balancer.
Proof.
  assert (Hkey : "abc" <> "") by discriminate.
  destruct (parameter_key_wins_over_environment Remote.server None
              (Some "web") None "present" 7 1 5 "abc" one_balancer Hkey)
    as [Hparam Henv].
  split.
  - apply Hparam.
  - apply Henv; [reflexivity|by right].
Defined.

(** Creating "db" through [main]: the echo call, then the calls of the run. *)
Lemma main_is_the_echo_test_then_the_run_witness :
  let run := reconcile Remote.server "present" (Some "db") None 7 1 0
               one_balancer in
  main Remote.server None
    (mkParams (Some "key") (Some "db") None "present" 7 1 0) ∅ one_balancer
  = (fst run,
     {| remote := remote (snd run);
        trace := mkEvent test_echo ∅ None :: trace (snd run) |}).
Proof.
  apply (main_is_the_echo_test_then_the_run Remote.server
           (mkParams (Some "key") (Some "db") None "present" 7 1 0) ∅
           one_balancer one_balancer "key"); reflexivity.
Defined.

(** State present on "web" never deletes; state absent never creates or
    updates. *)
Lemma desired_state_limits_the_writes_witness :
  Forall (fun ev => ev_method ev <> nodebalancer_delete)
    (trace (snd (reconcile Remote.server "present" (Some "web") None 7 1 9
                   one_balancer))) /\
  Forall (fun ev => ev_method ev <> nodebalancer_create /\
                    ev_method ev <> nodebalancer_update)
    (trace (snd (reconcile Remote.server "absent" (Some "web") None 7 1 9
                   one_balancer))).
Proof.
  split.
  - apply (proj1 (desired_state_limits_the_writes Remote.server "present"
                    (Some "web") None 7 1 9 one_balancer)). reflexivity.
  - apply (proj1 (proj2 (desired_state_limits_the_writes Remote.server
                           "absent" (Some "web") None 7 1 9 one_balancer))).
    reflexivity.
Defined.

(** Throttle 9 wanted for "web": the update returns id 7, which is read
    back. *)
Lemma update_result_is_read_back_by_returned_id_witness :
  reconcile Remote.server "present" (Some "web") None 7 1 9 one_balancer
  = (exit_json true (Some (mkNodeBalancer 7 "web" 9 7 1))
       [Some (mkNodeBalancer 7 "web" 9 7 1)],
     {| remote := Remote.mkStore [mkNodeBalancer 7 "web" 9 7 1] 8;
        trace := [mkEvent nodebalancer_list ∅ None] ++
          [mkEvent nodebalancer_update (update_call_kwargs web (Some "web") 9)
             None;
           mkEvent nodebalancer_find {[ "NodeBalancerID" := PyInt 7 ]} None] |}).
Proof.
  apply (update_result_is_read_back_by_returned_id Remote.server (Some "web")
           None 7 1 9 one_balancer web
           {| remote := one_balancer;
              trace := [mkEvent nodebalancer_list ∅ None] |}
           (mkWriteResponse 7)
           (Remote.mkStore [mkNodeBalancer 7 "web" 9 7 1] 8)
           (Remote.mkStore [mkNodeBalancer 7 "web" 9 7 1] 8)
           (Some (mkNodeBalancer 7 "web" 9 7 1)));
    vm_compute; reflexivity.
Defined.

(** The service that loses lookups by id: the update of "web" and the
    creation of "db" are carried out, and both runs fail. *)
Lemma failure_after_a_write_keeps_the_write_witness :
  (fst (reconcile Flaky.server "present" (Some "web") None 7 1 9 one_balancer)
     = fail_json "FATAL: Code [4] - Authentication failed" /\
   remote (snd (reconcile Flaky.server "present" (Some "web") None 7 1 9
                  one_balancer))
     = Remote.mkStore [mkNodeBalancer 7 "web" 9 7 1] 8) /\
  (fst (reconcile Flaky.server "present" (Some "db") None 7 1 9 one_balancer)
     = fail_json "FATAL: Code [4] - Authentication failed" /\
   remote (snd (reconcile Flaky.server "present" (Some "db") None 7 1 9
                  one_balancer))
     = Remote.mkStore [web; mkNodeBalancer 8 "db" 0 7 1] 9).
Proof.
  split.
  - rewrite (proj1 (failure_after_a_write_keeps_the_write Flaky.server)
               (Some "web") None 7 1 9 one_balancer web
               {| remote := one_balancer;
                  trace := [mkEvent nodebalancer_list ∅ None] |}
               (mkWriteResponse 7)
               (Remote.mkStore [mkNodeBalancer 7 "web" 9 7 1] 8)
               (Remote.mkStore [mkNodeBalancer 7 "web" 9 7 1] 8)
               Outage.down);
      try (vm_compute; reflexivity).
    split; reflexivity.
  - rewrite (proj2 (failure_after_a_write_keeps_the_write Flaky.server)
               (Some "db") None 7 1 9 one_balancer
               {| remote := one_balancer;
                  trace := [mkEvent nodebalancer_list ∅ None] |}
               (mkWriteResponse 8)
               (Remote.mkStore [web; mkNodeBalancer 8 "db" 0 7 1] 9)
               (Remote.mkStore [web; mkNodeBalancer 8 "db" 0 7 1] 9)
               Outage.down);
      try (vm_compute; reflexivity).
    split; reflexivity.
Defined.

(** "web" exists in datacenter 7: asking for datacenter 2 and term 24
    changes nothing about the run. *)
Lemma placement_and_term_are_ignored_once_found_witness :
  reconcile Remote.server "present" (Some "web") None 7 1 9 one_balancer
  = reconcile Remote.server "present" (Some "web") None 2 24 9 one_balancer.
Proof.
  apply (placement_and_term_are_ignored_once_found Remote.server "present"
           (Some "web") None 7 1 2 24 9 one_balancer web
           {| remote := one_balancer;
              trace := [mkEvent nodebalancer_list ∅ None] |}).
  vm_compute; reflexivity.
Defined.

(** Creating "db": throttle 5 or 0, the same run. *)
Lemma throttle_is_ignored_on_creation_witness :
  reconcile Remote.server "present" (Some "db") None 7 1 5 one_balancer
  = reconcile Remote.server "present" (Some "db") None 7 1 0 one_balancer /\
  reconcile Remote.server "absent" (Some "web") None 7 1 5 one_balancer
  = reconcile Remote.server "absent" (Some "web") None 2 24 0 one_balancer.
Proof.
  split.
  - apply (proj1 (throttle_is_ignored_on_creation Remote.server) "present"
             (Some "db") None 7 1 5 0 one_balancer
             {| remote := one_balancer;
                trace := [mkEvent nodebalancer_list ∅ None] |}).
    vm_compute; reflexivity.
  - apply (proj2 (throttle_is_ignored_on_creation Remote.server)).
    discriminate.
Defined.

(** The model answers lookups without changing; the converged run on "web"
    reports changed=false and the store is as before. *)
Lemma no_change_reported_means_remote_untouched_witness :
  remote (snd (reconcile Remote.server "present" (Some "web") None 7 1 5
                 one_balancer))
  = one_balancer.
Proof.
  apply (no_change_reported_means_remote_untouched Remote.server "present"
           (Some "web") None 7 1 5 one_balancer (Some web) [Some web]).
  - intros kw r0. unfold Remote.server, Remote.model_find. simpl.
    destruct (Remote.kw_get "NodeBalancerID" kw) as [[]|]; reflexivity.
  - intros kw r0. reflexivity.
  - vm_compute; reflexivity.
Defined.

Lemma two_balancers_wf : Remote.store_wf two_balancers.
Proof.
  split; [|repeat constructor].
  apply NoDup_cons. split; [|apply NoDup_singleton].
  intros H%list_elem_of_In. simpl in H. destruct H as [H|[]]. discriminate.
Defined.

(** Deleting "web" from a store that also holds "db": "db" stays. *)
Lemma other_balancers_are_left_as_they_were_witness :
  In db (Remote.balancers
           (remote (snd (reconcile Remote.server "absent" (Some "web") None
                           7 1 0 two_balancers)))).
Proof.
  apply (other_balancers_are_left_as_they_were two_balancers "absent"
           (Some "web") None 7 1 0 db two_balancers_wf).
  - right. left. reflexivity.
  - vm_compute. discriminate.
Defined.

(** Asking for "db" where only "web" exists. *)
Lemma present_run_leaves_a_balancer_with_the_name_witness :
  exists changed nb,
    fst (reconcile Remote.server "present" (Some "db") None 2 12 5 one_balancer)
      = exit_json changed (Some nb) [Some nb] /\
    LABEL nb = "db" /\
    Remote.model_lookup None (Some "db")
      (remote (snd (reconcile Remote.server "present" (Some "db") None 2 12 5
                      one_balancer)))
      <> None.
Proof.
  destruct (present_run_leaves_a_balancer_with_the_name one_balancer "db" None
              2 12 5 one_balancer_wf)
    as (changed & nb & Hrun & Hlabel & _ & Hfound & _).
  exists changed, nb. exact (conj Hrun (conj Hlabel Hfound)).
Defined.

(** Removing "web" by name. *)
Lemma absent_run_leaves_no_such_balancer_witness :
  exists changed,
    fst (reconcile Remote.server "absent" (Some "web") None 7 1 0 two_balancers)
      = exit_json changed None [None] /\
    Remote.model_lookup None (Some "web")
      (remote (snd (reconcile Remote.server "absent" (Some "web") None 7 1 0
                      two_balancers)))
      = None.
Proof.
  destruct (absent_run_leaves_no_such_balancer two_balancers "web" None 7 1 0
              two_balancers_wf)
    as (changed & Hrun & _ & Hgone).
  - intros _. vm_compute. lia.
  - exists changed. exact (conj Hrun Hgone).
Defined.

(** *** Two runs in a row against the model *)

Module RemoteSettles.
Import Remote RemoteFacts RemoteRuns.










End RemoteSettles.

Module TwoRuns.
Import Remote RemoteFacts RemoteRuns RemoteSettles.




End TwoRuns.



(** C2 as first stated: the final label equals the desired label.  With an
    id and no name the conditions of the claim are met (balancer 7 exists,
    state present, the label differs from the null name), one update is
    issued, and the label reported at the end is still "web", not the null
    name. *)
Lemma update_with_null_name_keeps_the_label :
  let run := reconcile Remote.server "present" None (Some 7) 7 1 5
               one_balancer in
  Remote.model_lookup (Some 7) None one_balancer = Some web /\
  label_differs web None || throttle_differs web 5 = true /\
  List.map ev_method (writes (trace (snd run))) = [nodebalancer_update] /\
  fst run = exit_json true (Some web) [Some web] /\
  Some (LABEL web) <> None /\
  label_differs web None = true.
Proof.
  cbv zeta. split_and!; try (vm_compute; reflexivity); discriminate.
Qed.

(** C3 as first stated: the label of the final resource equals the desired
    value.  With an unknown id and no name, nothing is found and state is
    present, so one create call is issued, with a null Label; the resource
    reported at the end carries a label of the remote's choosing, not the
    null name. *)
Lemma create_with_null_name_gets_another_label :
  let run := reconcile Remote.server "present" None (Some 99) 7 1 0
               one_balancer in
  Remote.model_lookup (Some 99) None one_balancer = None /\
  List.map ev_method (writes (trace (snd run))) = [nodebalancer_create] /\
  fst run = exit_json true (Some (mkNodeBalancer 8 "nodebalancer8" 0 7 1))
                           [Some (mkNodeBalancer 8 "nodebalancer8" 0 7 1)] /\
  Some (LABEL (mkNodeBalancer 8 "nodebalancer8" 0 7 1)) <> None.
Proof.
  cbv zeta. split_and!; try (vm_compute; reflexivity); discriminate.
Qed.


(** C3, as amended.  When the lookup yields nothing and the desired state is
    present, the run issues exactly one write, a create call carrying
    exactly DatacenterID, PaymentTerm and Label (no ClientConnThrottle);
    once the remote has answered it, the resource is looked up by the id
    the create call returned and the run reports changed=true with what
    that lookup yields.  Against the model of the remote service, the final
    resource carries the desired datacenter and payment term and throttle
    0, and, when a name is given, the desired label. *)
Theorem create_sends_datacenter_term_and_label :
  (forall (R : Type) (srv : Server R) (name : option string)
          (node_balancer_id : option Z)
          (datacenter_id paymentterm client_conn_throttle : Z)
          (r : R) (w1 : world R),
     linode_find_nodebalancer srv node_balancer_id name (init r)
       = (inr None, w1) ->
     let run := reconcile srv "present" name node_balancer_id datacenter_id
                  paymentterm client_conn_throttle r in
     let kw := create_call_kwargs name datacenter_id paymentterm in
     (exists err,
        writes (trace (snd run)) = [mkEvent nodebalancer_create kw err]) /\
     dom kw = {[ "DatacenterID"; "PaymentTerm"; "Label" ]} /\
     kw !! "DatacenterID" = Some (PyInt datacenter_id) /\
     kw !! "PaymentTerm" = Some (PyInt paymentterm) /\
     kw !! "Label" = Some (py_of_name name) /\
     kw !! "ClientConnThrottle" = None /\
     (forall new r2 inst r3,
        srv_create srv kw (remote w1) = (inr new, r2) ->
        srv_find srv {[ "NodeBalancerID" := PyInt (NodeBalancerID new) ]} r2
          = (inr inst, r3) ->
        run = (exit_json true inst [inst],
               {| remote := r3;
                  trace := trace w1 ++
                    [mkEvent nodebalancer_create kw None;
                     mkEvent nodebalancer_find
                       {[ "NodeBalancerID" := PyInt (NodeBalancerID new) ]}
                       None] |}))) /\
  (forall (st : Remote.store) (name : option string)
          (node_balancer_id : option Z)
          (datacenter_id paymentterm client_conn_throttle : Z)
          (w1 : world Remote.store),
     Remote.store_wf st ->
     linode_find_nodebalancer Remote.server node_balancer_id name (init st)
       = (inr None, w1) ->
     let run := reconcile Remote.server "present" name node_balancer_id
                  datacenter_id paymentterm client_conn_throttle st in
     exists nb,
       fst run = exit_json true (Some nb) [Some nb] /\
       (forall s, name = Some s -> LABEL nb = s) /\
       DATACENTERID nb = datacenter_id /\
       PAYMENTTERM nb = paymentterm /\ CLIENTCONNTHROTTLE nb = 0 /\
       NODEBALANCERID nb = Remote.next_id st /\
       trace (snd run)
         = [Remote.lookup_event node_balancer_id;
            mkEvent nodebalancer_create
              (create_call_kwargs name datacenter_id paymentterm) None;
            Remote.lookup_event (Some (NODEBALANCERID nb))]).
Proof.
  split.
  - intros R srv name id dc pt t r w1 Hfind run kw.
    pose proof (find_no_write srv _ _ _ _ _ Hfind) as Hnw.
    split_and!; try (subst kw; unfold create_call_kwargs; done).
    + subst run kw. unfold_run. rewrite Hfind. simpl.
      unfold linode_find_nodebalancer, call, ret. simpl.
      destruct (srv_create srv _ (remote w1)) as [[e|new] r2]; simpl;
        [rewrite writes_app, Hnw; by eexists|].
      destruct (srv_find srv _ r2) as [[e|inst] r3]; simpl;
        rewrite !writes_app, Hnw; by eexists.
    + intros new r2 inst r3 Hcreate Hre.
      subst run kw. unfold_run. rewrite Hfind. simpl.
      unfold linode_find_nodebalancer, call, ret. simpl.
      rewrite Hcreate. simpl. rewrite Hre. simpl.
      by rewrite <- app_assoc.
  - intros st name id dc pt t w1 Hwf Hfind run.
    rewrite RemoteFacts.lookup_run in Hfind. simpl in Hfind.
    injection Hfind as Hfound _.
    destruct (RemoteRuns.run_create_any "present" name id dc pt t st Hwf
                Hfound eq_refl) as (label & Hrun & Hlabel).
    subst run. rewrite Hrun. simpl. eexists. split; [reflexivity|].
    simpl. split_and!; done.
Qed.

(** Nothing is called "db": one create call, and the new resource has the
    desired label, datacenter and term, throttle 0 and the next free id. *)
Lemma create_sends_datacenter_term_and_label_witness :
  exists nb,
    fst (reconcile Remote.server "present" (Some "db") None 3 12 5 one_balancer)
      = exit_json true (Some nb) [Some nb] /\
    LABEL nb = "db" /\ DATACENTERID nb = 3 /\ PAYMENTTERM nb = 12 /\
    CLIENTCONNTHROTTLE nb = 0 /\ NODEBALANCERID nb = 8 /\
    trace (snd (reconcile Remote.server "present" (Some "db") None 3 12 5
                  one_balancer))
      = [Remote.lookup_event None;
         mkEvent nodebalancer_create (create_call_kwargs (Some "db") 3 12) None;
         Remote.lookup_event (Some (NODEBALANCERID nb))].
Proof.
  destruct (proj2 create_sends_datacenter_term_and_label
              one_balancer (Some "db") None 3 12 5
              {| remote := one_balancer; trace := [Remote.lookup_event None] |}
              one_balancer_wf ltac:(vm_compute; reflexivity))
    as (nb & Hrun & Hlabel & Hdc & Hpt & Ht & Hid & Htr).
  exists nb.
  exact (conj Hrun (conj (Hlabel "db" eq_refl)
           (conj Hdc (conj Hpt (conj Ht (conj Hid Htr)))))).
Defined.

